(** * GED: the document store (server/storage.ts) and its routes (server/routes.ts)

    A shallow embedding of the storage layer of the GED document manager:
    the relational schema of [shared/schema.ts], the [DatabaseStorage]
    methods of [server/storage.ts] and the route handlers of
    [server/routes.ts] that the properties below are about.

    - A table is the list of its rows, in insertion order; a [serial] key
      is drawn from a per-table sequence.
    - A query of the query builder ([from], [innerJoin], [where],
      [orderBy]) is the list function it denotes; SQL conditions are
      three-valued ([None] is SQL NULL).
    - [async] code threads the world (database, upload directory,
      console) through a state-and-exception monad [M]; [await] is bind;
      a JS exception is [Throw].
    - A [timestamp] of the store is a number of microseconds since the
      epoch, a JavaScript [Date] a number of milliseconds; the driver
      converts between them ([Sql.of_Date], [Sql.to_Date]). The clock is
      an argument [now] of the operations that read it, in microseconds:
      [NOW()] is [now], and [new Date()] is [now] cut to the millisecond.
      The store and the process run in UTC.
    - A string is the sequence of the bytes of its UTF-8 encoding, which
      is what the store keeps and what the driver sends.
    - A row that a [select] hands over is the row of the table; where the
      code reads one of its dates, the [Date] is the timestamp cut to the
      millisecond.
    - Route parameters are taken after [parseInt], as integers; failures
      of the store itself (connection, malformed parameter) are outside
      the model, except the statement that [createFolder] sends without
      its [parentId]. *)

From stdpp Require Import base list sorting gmap strings.
From Stdlib Require Import ZArith Ascii Lia.

Local Open Scope Z_scope.

(** ** JavaScript values *)

Module JS.

(** [Date]: milliseconds since 1970-01-01T00:00:00Z. *)
Abbreviation Date := Z (only parsing).

(** [new Date()] and [Date.now()], when the clock shows [now]
    microseconds. *)
Definition new_Date (now : Z) : Date := now / 1000.

(** A JSON value, as stored in a [jsonb] column. *)
#[warnings="-register-all"]
Inductive Json :=
| JNull
| JBool (b : bool)
| JNum (z : Z)
| JStr (s : string)
| JArr (l : list Json)
| JObj (kv : list (string * Json)).

(** Truthiness of a [number | null | undefined] and of a
    [string | null | undefined]: [0] and the empty string are falsy. *)
Definition truthy_num (x : option Z) : bool :=
  match x with Some z => negb (z =? 0) | None => false end.

Definition truthy_str (x : option string) : bool :=
  match x with Some s => negb (String.eqb s "") | None => false end.

(** A [Date] object is truthy, also an invalid one. *)
Definition truthy_obj {A} (x : option A) : bool :=
  match x with Some _ => true | None => false end.

(** [x || d] on strings. *)
Definition or_str (x : option string) (d : string) : string :=
  if truthy_str x then default d x else d.

(** [x || d] on numbers. *)
Definition or_num (x : option Z) (d : Z) : Z :=
  if truthy_num x then default d x else d.

(** [obj.key] on a parsed JSON object; [None] is [undefined]. *)
Definition get (key : string) (obj : list (string * Json)) : option Json :=
  snd <$> head (filter (fun kv => kv.1 = key) obj).

(** [`${x}`] for [x : string | undefined]. *)
Definition interp (x : option string) : string := default "undefined" x.

(** [Date.prototype.toISOString]: [YYYY-MM-DDTHH:mm:ss.sssZ], with a
    signed six-digit year outside 0..9999. *)
Definition digit (d : Z) : Ascii.ascii := Ascii.ascii_of_nat (48 + Z.to_nat d).

Fixpoint pad (width : nat) (z : Z) : string :=
  match width with
  | O => ""
  | S w => pad w (z / 10) +:+ String (digit (z mod 10)) ""
  end.

Definition civil_from_days (days : Z) : Z * Z * Z :=
  let z := days + 719468 in
  let era := z / 146097 in
  let doe := z - era * 146097 in
  let yoe := (doe - doe / 1460 + doe / 36524 - doe / 146096) / 365 in
  let doy := doe - (365 * yoe + yoe / 4 - yoe / 100) in
  let mp := (5 * doy + 2) / 153 in
  let d := doy - (153 * mp + 2) / 5 + 1 in
  let m := if mp <? 10 then mp + 3 else mp - 9 in
  let y := yoe + era * 400 + (if m <=? 2 then 1 else 0) in
  (y, m, d).

Definition toISOString (t : Date) : string :=
  let '(y, m, d) := civil_from_days (t / 86400000) in
  let ms := t mod 86400000 in
  let year :=
    if (0 <=? y) && (y <=? 9999) then pad 4 y
    else (if y <? 0 then "-" else "+") +:+ pad 6 (Z.abs y) in
  year +:+ "-" +:+ pad 2 m +:+ "-" +:+ pad 2 d +:+ "T"
    +:+ pad 2 (ms / 3600000) +:+ ":" +:+ pad 2 (ms / 60000 mod 60) +:+ ":"
    +:+ pad 2 (ms / 1000 mod 60) +:+ "." +:+ pad 3 (ms mod 1000) +:+ "Z".

End JS.

Import JS.

(** ** The schema (shared/schema.ts)

    One module per table, named as the table object; its [row] is the
    table's [$inferSelect] type and its projections are the columns. A
    nullable column is an [option]. *)

(** A [timestamp] column: microseconds since 1970-01-01 00:00:00. *)
Abbreviation Timestamp := Z (only parsing).

Module users.
Record row := {
  id : Z;
  username : string;
  email : string;
  firstName : option string;
  lastName : option string;
  role : string;
  createdAt : option Timestamp;
  updatedAt : option Timestamp;
}.
End users.

Module folders.
Record row := {
  id : Z;
  name : string;
  parentId : option Z;
  path : string;
  type : string;
  permissions : option (list (string * list string));
  createdBy : Z;
  createdAt : option Timestamp;
  updatedAt : option Timestamp;
}.
End folders.

Module documents.
(** [D] is the type of [createdAt] and [updatedAt], [E] the type of
    [expirationDate]: timestamps in the table, strings in the
    [Document] type handed to callers. *)
Record row_of {D E : Type} := {
  id : Z;
  name : string;
  originalName : string;
  folderId : Z;
  fileType : string;
  fileSize : Z;
  filePath : string;
  mimeType : string;
  status : string;
  tags : option (list string);
  description : option string;
  version : Z;
  isLatestVersion : bool;
  parentDocumentId : option Z;
  expirationDate : E;
  createdBy : Z;
  createdAt : D;
  updatedAt : D;
}.
Arguments row_of : clear implicits.
Abbreviation row := (row_of (option Timestamp) (option Timestamp)).
End documents.

Module documentPermissions.
Record row := {
  id : Z;
  documentId : Z;
  userId : option Z;
  userGroup : option string;
  permissions : list string;
  createdAt : option Timestamp;
}.
End documentPermissions.

Module documentShares.
Record row := {
  id : Z;
  documentId : Z;
  shareToken : string;
  expiresAt : option Timestamp;
  maxViews : option Z;
  currentViews : Z;
  createdBy : Z;
  createdAt : option Timestamp;
}.
End documentShares.

Module activityLog.
Record row := {
  id : Z;
  userId : Z;
  action : string;
  resourceType : string;
  resourceId : Z;
  metadata : option (list (string * Json));
  createdAt : option Timestamp;
}.
End activityLog.

Abbreviation User := users.row.
Abbreviation Folder := folders.row.
(** [Document]: the row with its three dates as strings. *)
Abbreviation Document := (documents.row_of string (option string)).
Abbreviation ActivityLog := activityLog.row.

(** [InsertFolder] without [path], with [createdBy]. The key [parentId]
    is optional and its value nullable: the outer [option] is the key
    being left out ([undefined]) and the inner one a [null]. [type] and
    [permissions] may be left out. *)
Module InsertFolder.
Record t := {
  name : string;
  parentId : option (option Z);
  type : option string;
  permissions : option (list (string * list string));
  createdBy : Z;
}.
End InsertFolder.

(** A row of [folders] as [db.execute] hands it over ([result.rows[0]]):
    the columns under their SQL names, a timestamp as the text the store
    prints for it. *)
Module RawFolder.
Record t := {
  id : Z;
  name : string;
  parent_id : option Z;
  path : string;
  type : string;
  permissions : option (list (string * list string));
  created_by : Z;
  created_at : option string;
  updated_at : option string;
}.
End RawFolder.

(** [InsertDocument] with [createdBy]. For a nullable column the outer
    [option] is the key being absent and the inner one a [null]. *)
Module InsertDocument.
Record t := {
  name : string;
  originalName : string;
  folderId : Z;
  fileType : string;
  fileSize : Z;
  filePath : string;
  mimeType : string;
  tags : option (option (list string));
  description : option (option string);
  expirationDate : option (option Date);
  createdBy : Z;
}.
End InsertDocument.

(** [UpdateDocument]: the six picked columns, each optional. *)
Module UpdateDocument.
Record t := {
  name : option string;
  folderId : option Z;
  tags : option (option (list string));
  description : option (option string);
  status : option string;
  expirationDate : option (option Date);
}.
End UpdateDocument.

(** The [filters] object of [searchDocuments]. *)
Module Filters.
Record t := {
  fileType : option string;
  status : option string;
  createdBy : option Z;
  tags : option (list string);
  dateFrom : option Date;
  dateTo : option Date;
}.
End Filters.

(** A document joined with its creator and its folder: the shape of the
    [select] of [getDocuments], [getDocumentById] and [searchDocuments]. *)
Record WithDetails {Doc : Type} := {
  document : Doc;
  createdByUser : User;
  folder : Folder;
}.
Arguments WithDetails : clear implicits.

(** ** The world: database, upload directory, console *)

Record Database := {
  users : list users.row;
  folders : list folders.row;
  documents : list documents.row;
  documentPermissions : list documentPermissions.row;
  documentShares : list documentShares.row;
  activityLog : list activityLog.row;
  (** next values of the [serial] sequences *)
  folders_id_seq : Z;
  documents_id_seq : Z;
  activity_log_id_seq : Z;
}.

Record World := {
  db : Database;
  disk : gset string;      (** paths of the files that exist *)
  console : list string;   (** lines written by [console.error] *)
}.

Definition with_db (w : World) (d : Database) : World :=
  {| db := d; disk := disk w; console := console w |}.

(** ** The monad of asynchronous code *)

Inductive Exn :=
| TypeError (msg : string)
| ENOENT (path : string)
| DatabaseError.          (** the store refuses a statement *)

Inductive Outcome (A : Type) :=
| Return (a : A)
| Throw (e : Exn).
Arguments Return {A} a.
Arguments Throw {A} e.

Definition M (A : Type) : Type := World -> Outcome A * World.

Definition ret {A} (a : A) : M A := fun w => (Return a, w).

Definition throw {A} (e : Exn) : M A := fun w => (Throw e, w).

Definition bind {A B} (m : M A) (k : A -> M B) : M B :=
  fun w =>
    match m w with
    | (Return a, w') => k a w'
    | (Throw e, w') => (Throw e, w')
    end.

(** [try { body } catch (e) { handler }] *)
Definition try_catch {A} (body : M A) (handler : Exn -> M A) : M A :=
  fun w =>
    match body w with
    | (Return a, w') => (Return a, w')
    | (Throw e, w') => handler e w'
    end.

Definition query {A} (q : Database -> A) : M A := fun w => (Return (q (db w)), w).

Definition console_error (line : string) : M unit :=
  fun w => (Return tt, {| db := db w; disk := disk w; console := console w ++ [line] |}).

Declare Scope async_scope.
Delimit Scope async_scope with async.
Notation "x <- m ;; k" := (bind m (fun x => k))
  (at level 100, m at next level, right associativity) : async_scope.
Notation "m ;;; k" := (bind m (fun _ => k))
  (at level 100, right associativity) : async_scope.
Open Scope async_scope.

(** ** The query builder (drizzle-orm) and the SQL it denotes *)

Module Sql.

(** SQL truth values: [None] is NULL (unknown). *)
Definition and3 (a b : option bool) : option bool :=
  match a, b with
  | Some false, _ | _, Some false => Some false
  | Some true, Some true => Some true
  | _, _ => None
  end.

Definition or3 (a b : option bool) : option bool :=
  match a, b with
  | Some true, _ | _, Some true => Some true
  | Some false, Some false => Some false
  | _, _ => None
  end.

(** A row passes [WHERE c] when [c] is true, not when it is false or NULL. *)
Definition holds (c : option bool) : bool :=
  match c with Some true => true | _ => false end.

(** [eq(column, value)] *)
Definition eq {A} `{EqDecision A} (column value : option A) : option bool :=
  match column, value with
  | Some x, Some y => Some (bool_decide (x = y))
  | _, _ => None
  end.

(** [column >= value] and [column <= value] on timestamps and integers *)
Definition ge (column value : option Z) : option bool :=
  match column, value with
  | Some x, Some y => Some (y <=? x)
  | _, _ => None
  end.

Definition le (column value : option Z) : option bool :=
  match column, value with
  | Some x, Some y => Some (x <=? y)
  | _, _ => None
  end.

(** *** Timestamps and the driver

    A [Date] that is sent to the store is written as text to the
    millisecond and read by the store as a timestamp; a timestamp that
    comes back is read with [new Date(text + '+0000')], which drops what
    is below the millisecond. *)
Definition of_Date (d : Date) : Timestamp := d * 1000.

Definition to_Date (t : Timestamp) : Date := t / 1000.

(** A [Date] or [null] sent to a nullable column. *)
Definition of_nullable_Date (d : option Date) : option Timestamp := of_Date <$> d.

(** The digits of a fraction [f] of [width] digits, without the zeros at
    its end. *)
Fixpoint trim_zeros (width : nat) (f : Z) : string :=
  match width with
  | O => ""
  | S w => if f mod 10 =? 0 then trim_zeros w (f / 10) else pad (S w) f
  end.

(** The text that the store prints for a timestamp:
    [YYYY-MM-DD HH:MM:SS], then the fraction of the second if it is not
    zero, then [BC] for a year before the year 1. The year has four
    digits or more; the store holds no year after 294276. *)
Definition timestamp_out (t : Timestamp) : string :=
  let '(y, m, d) := civil_from_days (t / 86400000000) in
  let us := t mod 86400000000 in
  let year := if 0 <? y then y else 1 - y in
  let width := if year <? 10000 then 4%nat else if year <? 100000 then 5%nat else 6%nat in
  let fraction := us mod 1000000 in
  pad width year +:+ "-" +:+ pad 2 m +:+ "-" +:+ pad 2 d +:+ " "
    +:+ pad 2 (us / 3600000000) +:+ ":" +:+ pad 2 (us / 60000000 mod 60) +:+ ":"
    +:+ pad 2 (us / 1000000 mod 60)
    +:+ (if fraction =? 0 then "" else "." +:+ trim_zeros 6 fraction)
    +:+ (if 0 <? y then "" else " BC").

(** [and(...conditions)]: conditions that are [undefined] are dropped. *)
Definition and_ {R} (conditions : list (option (R -> option bool))) (r : R) : option bool :=
  foldr (fun c acc => and3 (c r) acc) (Some true) (omap id conditions).

(** [or(...conditions)] *)
Definition or_ {R} (conditions : list (R -> option bool)) (r : R) : option bool :=
  foldr (fun c acc => or3 (c r) acc) (Some false) conditions.

(** *** LIKE

    In a pattern [%] matches any sequence of characters, [_] any single
    character, and a backslash makes the next character literal. A
    character is one character of the UTF-8 encoding: a byte and the
    bytes [10xxxxxx] that continue it. The text and the pattern are
    well-formed UTF-8, so that a literal never matches in the middle of
    a character, and a [%] that stops in the middle of one is followed
    by a [_] that takes the rest of it. *)
Definition continuation (c : Ascii.ascii) : bool :=
  match c with Ascii.Ascii _ _ _ _ _ _ b6 b7 => b7 && negb b6 end.

(** What is left of [s] after the bytes that continue a character. *)
Fixpoint skip_continuation (s : string) : string :=
  match s with
  | EmptyString => s
  | String c s' => if continuation c then skip_continuation s' else s
  end.

Inductive tok :=
| AnySeq
| AnyChar
| Lit (c : Ascii.ascii).

Definition percent : Ascii.ascii := "%"%char.
Definition underscore : Ascii.ascii := "_"%char.
Definition backslash : Ascii.ascii := "\"%char.

(** [escaped] says that the previous character was an unescaped
    backslash. A pattern that ends with one is rejected by the store
    ([like_wf]); [like_tokens] is meant for the others. *)
Fixpoint like_tokens (escaped : bool) (pattern : string) : list tok :=
  match pattern with
  | EmptyString => []
  | String c rest =>
      if escaped then Lit c :: like_tokens false rest
      else if Ascii.eqb c backslash then like_tokens true rest
      else if Ascii.eqb c percent then AnySeq :: like_tokens false rest
      else if Ascii.eqb c underscore then AnyChar :: like_tokens false rest
      else Lit c :: like_tokens false rest
  end.

Fixpoint like_wf (escaped : bool) (pattern : string) : bool :=
  match pattern with
  | EmptyString => negb escaped
  | String c rest =>
      if escaped then like_wf false rest
      else like_wf (Ascii.eqb c backslash) rest
  end.

Fixpoint like_match (p : list tok) (s : string) {struct p} : bool :=
  match p with
  | [] => match s with EmptyString => true | _ => false end
  | AnySeq :: p' =>
      (fix skip (s : string) : bool :=
         like_match p' s
         || match s with EmptyString => false | String _ s' => skip s' end) s
  | AnyChar :: p' =>
      match s with
      | EmptyString => false
      | String _ s' => like_match p' (skip_continuation s')
      end
  | Lit c :: p' =>
      match s with
      | EmptyString => false
      | String c' s' => Ascii.eqb c c' && like_match p' s'
      end
  end.

(** [like(column, pattern)] *)
Definition like (column : option string) (pattern : string) : option bool :=
  match column with
  | Some s => Some (like_match (like_tokens false pattern) s)
  | None => None
  end.

(** *** FROM, INNER JOIN, WHERE, ORDER BY *)

Definition innerJoin {A B} (rows : list A) (table : list B)
    (on : A -> B -> option bool) : list (A * B) :=
  a ← rows; b ← filter (fun b => holds (on a b)) table; [(a, b)].

Definition where_ {R} (condition : R -> option bool) (rows : list R) : list R :=
  filter (fun r => holds (condition r)) rows.

(** [desc(column)]: larger values first, and NULL before every value. *)
Definition desc_le (x y : option Z) : bool :=
  match x, y with
  | None, _ => true
  | Some _, None => false
  | Some a, Some b => b <=? a
  end.

Definition desc {R} (column : R -> option Z) : relation R :=
  fun r1 r2 => desc_le (column r1) (column r2).

#[export] Instance desc_dec {R} (column : R -> option Z) (r1 r2 : R) :
  Decision (desc column r1 r2).
Proof. unfold desc. apply _. Defined.

Definition orderBy {R} (order : relation R) `{forall x y, Decision (order x y)}
    (rows : list R) : list R :=
  merge_sort order rows.

(** *** Aggregates *)

Definition count_star {R} (rows : list R) : Z := Z.of_nat (length rows).

(** [count( * ) filter (where c)] *)
Definition count_filter {R} (c : R -> option bool) (rows : list R) : Z :=
  count_star (where_ c rows).

(** [sum(column)]: NULL over no row. *)
Definition sum {R} (column : R -> Z) (rows : list R) : option Z :=
  match rows with
  | [] => None
  | _ => Some (foldr (fun r acc => column r + acc) 0 rows)
  end.

End Sql.

(** ** Statements on the tables *)

Definition statement {A} (stmt : Database -> A * Database) : M A :=
  fun w => let '(a, d) := stmt (db w) in (Return a, with_db w d).

(** [INSERT INTO folders ... RETURNING *]: the key comes from the sequence. *)
Definition insert_folder (values : Z -> Folder) (d : Database) : Folder * Database :=
  let row := values (folders_id_seq d) in
  (row, {| users := users d;
           folders := folders d ++ [row];
           documents := documents d;
           documentPermissions := documentPermissions d;
           documentShares := documentShares d;
           activityLog := activityLog d;
           folders_id_seq := folders_id_seq d + 1;
           documents_id_seq := documents_id_seq d;
           activity_log_id_seq := activity_log_id_seq d |}).

Definition insert_document (values : Z -> documents.row) (d : Database)
    : documents.row * Database :=
  let row := values (documents_id_seq d) in
  (row, {| users := users d;
           folders := folders d;
           documents := documents d ++ [row];
           documentPermissions := documentPermissions d;
           documentShares := documentShares d;
           activityLog := activityLog d;
           folders_id_seq := folders_id_seq d;
           documents_id_seq := documents_id_seq d + 1;
           activity_log_id_seq := activity_log_id_seq d |}).

Definition insert_activity (values : Z -> ActivityLog) (d : Database) : unit * Database :=
  let row := values (activity_log_id_seq d) in
  (tt, {| users := users d;
          folders := folders d;
          documents := documents d;
          documentPermissions := documentPermissions d;
          documentShares := documentShares d;
          activityLog := activityLog d ++ [row];
          folders_id_seq := folders_id_seq d;
          documents_id_seq := documents_id_seq d;
          activity_log_id_seq := activity_log_id_seq d + 1 |}).

Definition with_documents (d : Database) (rows : list documents.row) : Database :=
  {| users := users d;
     folders := folders d;
     documents := rows;
     documentPermissions := documentPermissions d;
     documentShares := documentShares d;
     activityLog := activityLog d;
     folders_id_seq := folders_id_seq d;
     documents_id_seq := documents_id_seq d;
     activity_log_id_seq := activity_log_id_seq d |}.

(** [UPDATE documents SET ... WHERE c RETURNING *]: the rows that pass [c]
    are rewritten where they are; the rewritten rows are returned. *)
Definition update_documents (c : documents.row -> option bool)
    (set : documents.row -> documents.row) (d : Database)
    : list documents.row * Database :=
  (set <$> Sql.where_ c (documents d),
   with_documents d ((fun r => if Sql.holds (c r) then set r else r) <$> documents d)).

(** [DELETE FROM documents WHERE c] *)
Definition delete_documents (c : documents.row -> option bool) (d : Database)
    : unit * Database :=
  (tt, with_documents d (filter (fun r => negb (Sql.holds (c r))) (documents d))).

(** ** DatabaseStorage (server/storage.ts) *)

(** [doc.createdAt ? doc.createdAt.toISOString() : ""] *)
Definition iso_or_empty (t : option Timestamp) : string :=
  match t with Some t => toISOString (Sql.to_Date t) | None => "" end.

(** [doc.expirationDate ? doc.expirationDate.toISOString() : null] *)
Definition iso_or_null (t : option Timestamp) : option string :=
  match t with Some t => Some (toISOString (Sql.to_Date t)) | None => None end.

(** [{ ...doc, createdAt: ..., updatedAt: ..., expirationDate: ... }] *)
Definition serialize (doc : documents.row) : Document :=
  {| documents.id := documents.id doc;
     documents.name := documents.name doc;
     documents.originalName := documents.originalName doc;
     documents.folderId := documents.folderId doc;
     documents.fileType := documents.fileType doc;
     documents.fileSize := documents.fileSize doc;
     documents.filePath := documents.filePath doc;
     documents.mimeType := documents.mimeType doc;
     documents.status := documents.status doc;
     documents.tags := documents.tags doc;
     documents.description := documents.description doc;
     documents.version := documents.version doc;
     documents.isLatestVersion := documents.isLatestVersion doc;
     documents.parentDocumentId := documents.parentDocumentId doc;
     documents.expirationDate := iso_or_null (documents.expirationDate doc);
     documents.createdBy := documents.createdBy doc;
     documents.createdAt := iso_or_empty (documents.createdAt doc);
     documents.updatedAt := iso_or_empty (documents.updatedAt doc) |}.

Definition serialize_details (r : WithDetails documents.row) : WithDetails Document :=
  {| document := serialize (document r);
     createdByUser := createdByUser r;
     folder := folder r |}.

(** [.select({ ...columns of documents, createdByUser: users, folder: folders })] *)
Definition select_details (r : documents.row * User * Folder) : WithDetails documents.row :=
  let '(doc, user, fld) := r in
  {| document := doc; createdByUser := user; folder := fld |}.

(** [.from(documents)
     .innerJoin(users, eq(documents.createdBy, users.id))
     .innerJoin(folders, eq(documents.folderId, folders.id))] *)
Definition join_details (docs : list documents.row) (us : list User) (fs : list Folder)
    : list (documents.row * User * Folder) :=
  Sql.innerJoin
    (Sql.innerJoin docs us
       (fun doc user => Sql.eq (Some (documents.createdBy doc)) (Some (users.id user))))
    fs
    (fun r fld => Sql.eq (Some (documents.folderId r.1)) (Some (folders.id fld))).

Definition from_documents (d : Database) : list (documents.row * User * Folder) :=
  join_details (documents d) (users d) (folders d).

Definition by_createdAt_desc : relation (documents.row * User * Folder) :=
  Sql.desc (fun r => documents.createdAt r.1.1).

Definition getFolderById (id : Z) : M (option Folder) :=
  rows <- query (fun d =>
    Sql.where_ (fun f => Sql.eq (Some (folders.id f)) (Some id)) (folders d)) ;;
  ret (head rows).

(** The row that [createFolder] inserts. *)
Definition inserted_folder (now : Timestamp) (folder : InsertFolder.t) (parentId : option Z)
    (path : string) (id : Z) : Folder :=
  {| folders.id := id;
     folders.name := InsertFolder.name folder;
     folders.parentId := parentId;
     folders.path := path;
     folders.type := or_str (InsertFolder.type folder) "standard";
     folders.permissions := Some (default [] (InsertFolder.permissions folder));
     folders.createdBy := InsertFolder.createdBy folder;
     folders.createdAt := Some now;
     folders.updatedAt := Some now |}.

(** A row of [folders] as the rows of [db.execute] have it. *)
Definition raw_folder (row : Folder) : RawFolder.t :=
  {| RawFolder.id := folders.id row;
     RawFolder.name := folders.name row;
     RawFolder.parent_id := folders.parentId row;
     RawFolder.path := folders.path row;
     RawFolder.type := folders.type row;
     RawFolder.permissions := folders.permissions row;
     RawFolder.created_by := folders.createdBy row;
     RawFolder.created_at := Sql.timestamp_out <$> folders.createdAt row;
     RawFolder.updated_at := Sql.timestamp_out <$> folders.updatedAt row |}.

(** [folder.parentId] is tested for truthiness: left out, [null] and 0
    are no parent. The statement is raw SQL: a [parentId] that is
    [undefined] leaves its place in [VALUES] empty, and the store refuses
    the statement; a [null] is sent as NULL. The method returns
    [result.rows[0]], the raw row. *)
Definition createFolder (now : Timestamp) (folder : InsertFolder.t) : M RawFolder.t :=
  path <- match InsertFolder.parentId folder with
          | Some (Some parentId) =>
              if truthy_num (Some parentId) then
                parent <- getFolderById parentId ;;
                ret (interp (folders.path <$> parent) +:+ "/" +:+ InsertFolder.name folder)
              else ret (InsertFolder.name folder)
          | Some None | None => ret (InsertFolder.name folder)
          end ;;
  match InsertFolder.parentId folder with
  | None => throw DatabaseError
  | Some parentId =>
      row <- statement (insert_folder (inserted_folder now folder parentId path)) ;;
      ret (raw_folder row)
  end.

Definition getDocuments (folderId : option Z) : M (list (WithDetails Document)) :=
  results <- query (fun d =>
    select_details <$>
      Sql.orderBy by_createdAt_desc
        (Sql.where_
           (Sql.and_ [
              Some (fun r => Sql.eq (Some (documents.isLatestVersion r.1.1)) (Some true));
              if truthy_num folderId
              then Some (fun r => Sql.eq (Some (documents.folderId r.1.1)) folderId)
              else None ])
           (from_documents d))) ;;
  ret (serialize_details <$> results).

Definition getDocumentById (id : Z) : M (option (WithDetails Document)) :=
  rows <- query (fun d =>
    select_details <$>
      Sql.where_ (fun r => Sql.eq (Some (documents.id r.1.1)) (Some id)) (from_documents d)) ;;
  ret (serialize_details <$> head rows).

(** The [conditions] array of [searchDocuments]: the two conditions it
    starts with, then one per filter that is truthy. [tags] is not read. *)
Definition search_conditions (query : string) (filters : option Filters.t)
    : list (documents.row * User * Folder -> option bool) :=
  let pattern := "%" +:+ query +:+ "%" in
  [ (fun r => Sql.eq (Some (documents.isLatestVersion r.1.1)) (Some true));
    Sql.or_ [
      (fun r => Sql.like (Some (documents.name r.1.1)) pattern);
      (fun r => Sql.like (Some (documents.originalName r.1.1)) pattern);
      (fun r => Sql.like (documents.description r.1.1) pattern) ] ]
  ++ (if truthy_str (filters ≫= Filters.fileType)
      then [fun r => Sql.eq (Some (documents.fileType r.1.1)) (filters ≫= Filters.fileType)]
      else [])
  ++ (if truthy_str (filters ≫= Filters.status)
      then [fun r => Sql.eq (Some (documents.status r.1.1)) (filters ≫= Filters.status)]
      else [])
  ++ (if truthy_num (filters ≫= Filters.createdBy)
      then [fun r => Sql.eq (Some (documents.createdBy r.1.1)) (filters ≫= Filters.createdBy)]
      else [])
  ++ (if truthy_obj (filters ≫= Filters.dateFrom)
      then [fun r => Sql.ge (documents.createdAt r.1.1)
                          (Sql.of_Date <$> (filters ≫= Filters.dateFrom))]
      else [])
  ++ (if truthy_obj (filters ≫= Filters.dateTo)
      then [fun r => Sql.le (documents.createdAt r.1.1)
                          (Sql.of_Date <$> (filters ≫= Filters.dateTo))]
      else []).

Definition searchDocuments (query_ : string) (filters : option Filters.t)
    : M (list (WithDetails Document)) :=
  results <- query (fun d =>
    select_details <$>
      Sql.orderBy by_createdAt_desc
        (Sql.where_ (Sql.and_ (Some <$> search_conditions query_ filters))
           (from_documents d))) ;;
  ret (serialize_details <$> results).

(** A column left out of [values] takes the column's default. *)
Definition or_default {A} (value : option A) (dflt : A) : A := default dflt value.

Definition createDocument (now : Timestamp) (document : InsertDocument.t) : M Document :=
  newDocument <- statement (insert_document (fun id =>
    {| documents.id := id;
       documents.name := InsertDocument.name document;
       documents.originalName := InsertDocument.originalName document;
       documents.folderId := InsertDocument.folderId document;
       documents.fileType := InsertDocument.fileType document;
       documents.fileSize := InsertDocument.fileSize document;
       documents.filePath := InsertDocument.filePath document;
       documents.mimeType := InsertDocument.mimeType document;
       documents.status := "draft";
       documents.tags := or_default (InsertDocument.tags document) (Some []);
       documents.description := or_default (InsertDocument.description document) None;
       documents.version := 1;
       documents.isLatestVersion := true;
       documents.parentDocumentId := None;
       documents.expirationDate :=
         or_default (Sql.of_nullable_Date <$> InsertDocument.expirationDate document) None;
       documents.createdBy := InsertDocument.createdBy document;
       documents.createdAt := Some now;
       documents.updatedAt := Some now |})) ;;
  ret (serialize newDocument).

(** [.set({ ...document, updatedAt: new Date() })]: a key that is absent
    leaves its column as it is. *)
Definition set_document (now : Timestamp) (document : UpdateDocument.t)
    (row : documents.row) : documents.row :=
  {| documents.id := documents.id row;
     documents.name := or_default (UpdateDocument.name document) (documents.name row);
     documents.originalName := documents.originalName row;
     documents.folderId := or_default (UpdateDocument.folderId document) (documents.folderId row);
     documents.fileType := documents.fileType row;
     documents.fileSize := documents.fileSize row;
     documents.filePath := documents.filePath row;
     documents.mimeType := documents.mimeType row;
     documents.status := or_default (UpdateDocument.status document) (documents.status row);
     documents.tags := or_default (UpdateDocument.tags document) (documents.tags row);
     documents.description :=
       or_default (UpdateDocument.description document) (documents.description row);
     documents.version := documents.version row;
     documents.isLatestVersion := documents.isLatestVersion row;
     documents.parentDocumentId := documents.parentDocumentId row;
     documents.expirationDate :=
       or_default (Sql.of_nullable_Date <$> UpdateDocument.expirationDate document)
         (documents.expirationDate row);
     documents.createdBy := documents.createdBy row;
     documents.createdAt := documents.createdAt row;
     documents.updatedAt := Some (Sql.of_Date (new_Date now)) |}.

Definition updateDocument (now : Timestamp) (id : Z) (document : UpdateDocument.t) : M Document :=
  rows <- statement (update_documents
    (fun r => Sql.eq (Some (documents.id r)) (Some id))
    (set_document now document)) ;;
  match head rows with
  | Some updatedDocument => ret (serialize updatedDocument)
  | None => throw (TypeError "Cannot read properties of undefined (reading 'createdAt')")
  end.

Definition deleteDocument (id : Z) : M unit :=
  statement (delete_documents (fun r => Sql.eq (Some (documents.id r)) (Some id))).

Definition logActivity (now : Timestamp) (userId : Z) (action resourceType : string)
    (resourceId : Z) (metadata : option (list (string * Json))) : M unit :=
  statement (insert_activity (fun id =>
    {| activityLog.id := id;
       activityLog.userId := userId;
       activityLog.action := action;
       activityLog.resourceType := resourceType;
       activityLog.resourceId := resourceId;
       activityLog.metadata := Some (default [] metadata);
       activityLog.createdAt := Some now |})).

Record DocumentStats := {
  totalDocuments : Z;
  expiringDocuments : Z;
  pendingDocuments : Z;
  totalStorage : Z;
}.

(** [Date.now()] is [new_Date now]. *)
Definition getDocumentStats (now : Timestamp) : M DocumentStats :=
  stats <- query (fun d =>
    let rows :=
      Sql.where_ (fun r => Sql.eq (Some (documents.isLatestVersion r)) (Some true))
        (documents d) in
    (Sql.count_star rows,
     Sql.count_filter
       (fun r => Sql.le (documents.expirationDate r)
                   (Some (Sql.of_Date (new_Date now + 7 * 24 * 60 * 60 * 1000))))
       rows,
     Sql.count_filter (fun r => Sql.eq (Some (documents.status r)) (Some "pending")) rows,
     Sql.sum documents.fileSize rows)) ;;
  let '(total, expiring, pending, storage) := stats in
  ret {| totalDocuments := or_num (Some total) 0;
         expiringDocuments := or_num (Some expiring) 0;
         pendingDocuments := or_num (Some pending) 0;
         totalStorage := or_num storage 0 |}.

(** ** Routes (server/routes.ts) *)

Inductive Body :=
| Message (message : string)
| ShareCreated (success : bool) (shareUrl message : string).

Record Response := {
  statusCode : Z;
  body : Body;
}.

(** [res.json(body)] and [res.status(code).json(body)] *)
Definition json (b : Body) : Response := {| statusCode := 200; body := b |}.
Definition status_json (code : Z) (b : Body) : Response := {| statusCode := code; body := b |}.

Definition getCurrentUserId : Z := 1.

(** [fs.unlinkSync(path)] *)
Definition unlinkSync (path : string) : M unit :=
  fun w =>
    if decide (path ∈ disk w)
    then (Return tt, {| db := db w; disk := disk w ∖ {[path]}; console := console w |})
    else (Throw (ENOENT path), w).

(** [app.delete("/api/documents/:id", ...)]; [id] is [parseInt(req.params.id)]. *)
Definition delete_document (now : Timestamp) (id : Z) : M Response :=
  try_catch
    (found <- getDocumentById id ;;
     match found with
     | None => ret (status_json 404 (Message "Document not found"))
     | Some doc =>
         try_catch
           (unlinkSync (documents.filePath (document doc)))
           (fun err => console_error "Error deleting file:") ;;;
         deleteDocument id ;;;
         logActivity now getCurrentUserId "delete_document" "document" id None ;;;
         ret (json (Message "Document deleted successfully"))
     end)
    (fun error =>
       console_error "Error deleting document:" ;;;
       ret (status_json 500 (Message "Failed to delete document"))).

(** What the share route reads of the request: [host] is
    [req.get('host')], and [body] is the parsed body, an object, or
    [undefined] when no body was parsed. *)
Module Request.
Record t := {
  protocol : string;
  host : option string;
  body : option (list (string * Json));
}.
End Request.

(** [app.post("/api/documents/:id/share", ...)]; [shareToken] is the
    string drawn by [Math.random().toString(36).substring(2, 15)]. A key
    whose value is [undefined] is not written to the [jsonb] column. *)
Definition share_document (now : Timestamp) (shareToken : string) (id : Z)
    (req : Request.t) : M Response :=
  try_catch
    (match Request.body req with
     | None =>
         throw (TypeError "Cannot destructure property 'expiresIn' of 'req.body' as it is undefined.")
     | Some body =>
         let expiresIn := get "expiresIn" body in
         let shareUrl :=
           Request.protocol req +:+ "://" +:+ interp (Request.host req)
             +:+ "/share/" +:+ shareToken in
         logActivity now getCurrentUserId "share_document" "document" id
           (Some ([("shareToken", JStr shareToken)]
                  ++ match expiresIn with Some v => [("expiresIn", v)] | None => [] end
                  ++ [("shareUrl", JStr shareUrl)])) ;;;
         ret (json (ShareCreated true shareUrl "Share link created successfully"))
     end)
    (fun error =>
       console_error "Error creating share link:" ;;;
       ret (status_json 500 (Message "Failed to create share link"))).

(** ** Words of the specification *)

(** A [serial] primary key: no two rows share a key, and keys start at 1. *)
Definition primary_key {R} (key : R -> Z) (rows : list R) : Prop :=
  NoDup (key <$> rows) /\ Forall (fun r => 1 <= key r) rows.

(** The rows with [isLatestVersion = true]. *)
Definition latest_documents (d : Database) : list documents.row :=
  filter (fun r => documents.isLatestVersion r = true) (documents d).

(** [expirationDate <= limit]; a row without expiration date does not count. *)
Definition expires_by (limit : Timestamp) (r : documents.row) : Prop :=
  match documents.expirationDate r with
  | Some e => e <= limit
  | None => False
  end.

#[export] Instance expires_by_dec limit r : Decision (expires_by limit r).
Proof. unfold expires_by. destruct (documents.expirationDate r); apply _. Defined.

(** The creator, and the folder, of a document row exist. *)
Definition has_creator (d : Database) (doc : documents.row) : Prop :=
  Exists (fun u => users.id u = documents.createdBy doc) (users d).

Definition has_folder (d : Database) (doc : documents.row) : Prop :=
  Exists (fun f => folders.id f = documents.folderId doc) (folders d).

(** [s] contains [q] as a substring. *)
Fixpoint contains (q s : string) : bool :=
  String.prefix q s
  || match s with
     | EmptyString => false
     | String _ s' => contains q s'
     end.

#[export] Instance has_creator_dec d doc : Decision (has_creator d doc).
Proof. unfold has_creator. apply _. Defined.

#[export] Instance has_folder_dec d doc : Decision (has_folder d doc).
Proof. unfold has_folder. apply _. Defined.

(** A row of a result carries the creator and the folder of its document. *)
Definition joined (d : Database) (r : WithDetails documents.row) : Prop :=
  createdByUser r ∈ users d
  /\ users.id (createdByUser r) = documents.createdBy (document r)
  /\ folder r ∈ folders d
  /\ folders.id (folder r) = documents.folderId (document r).

(** A property asked of a key of the filters when the key is there. *)
Definition when_present {A} (value : option A) (P : A -> Prop) : Prop :=
  match value with Some a => P a | None => True end.

#[export] Instance when_present_dec {A} (value : option A) (P : A -> Prop)
  `{forall a, Decision (P a)} : Decision (when_present value P).
Proof. destruct value; simpl; apply _. Defined.

(** The document is in the folder [folderId], when one is given. *)
Definition in_folder (folderId : option Z) (doc : documents.row) : Prop :=
  when_present folderId (fun f => documents.folderId doc = f).

(** The rows that a listing of [folderId] is to show. *)
Definition listed (d : Database) (folderId : option Z) (doc : documents.row) : Prop :=
  documents.isLatestVersion doc = true
  /\ in_folder folderId doc
  /\ has_creator d doc
  /\ has_folder d doc.

#[export] Instance listed_dec d folderId doc : Decision (listed d folderId doc).
Proof. unfold listed, in_folder. apply _. Defined.

(** [createdAt >= t] and [createdAt <= t] for a date [t], in the store's
    microseconds; a row without date passes neither. *)
Definition created_from (t : Date) (doc : documents.row) : Prop :=
  match documents.createdAt doc with Some c => t * 1000 <= c | None => False end.

Definition created_to (t : Date) (doc : documents.row) : Prop :=
  match documents.createdAt doc with Some c => c <= t * 1000 | None => False end.

#[export] Instance created_from_dec t doc : Decision (created_from t doc).
Proof. unfold created_from. destruct (documents.createdAt doc); apply _. Defined.

#[export] Instance created_to_dec t doc : Decision (created_to t doc).
Proof. unfold created_to. destruct (documents.createdAt doc); apply _. Defined.

(** The document passes every filter that is present. *)
Definition passes (filters : option Filters.t) (doc : documents.row) : Prop :=
  when_present (filters ≫= Filters.fileType) (fun t => documents.fileType doc = t)
  /\ when_present (filters ≫= Filters.status) (fun s => documents.status doc = s)
  /\ when_present (filters ≫= Filters.createdBy) (fun u => documents.createdBy doc = u)
  /\ when_present (filters ≫= Filters.dateFrom) (fun t => created_from t doc)
  /\ when_present (filters ≫= Filters.dateTo) (fun t => created_to t doc).

#[export] Instance passes_dec filters doc : Decision (passes filters doc).
Proof. unfold passes. apply _. Defined.

(** No filter holds a falsy value: an empty [fileType] or [status], or a
    [createdBy] of 0. *)
Definition truthy_filters (filters : option Filters.t) : Prop :=
  filters ≫= Filters.fileType <> Some ""
  /\ filters ≫= Filters.status <> Some ""
  /\ filters ≫= Filters.createdBy <> Some 0.

(** The name, the original name or the description matches [%query%]. *)
Definition text_like (query_ : string) (doc : documents.row) : bool :=
  let p := Sql.like_tokens false ("%" +:+ query_ +:+ "%") in
  Sql.like_match p (documents.name doc)
  || Sql.like_match p (documents.originalName doc)
  || match documents.description doc with
     | Some s => Sql.like_match p s
     | None => false
     end.

(** The name, the original name or the description contains [query]. *)
Definition text_contains (query_ : string) (doc : documents.row) : bool :=
  contains query_ (documents.name doc)
  || contains query_ (documents.originalName doc)
  || match documents.description doc with
     | Some s => contains query_ s
     | None => false
     end.

(** [query] has none of the characters that LIKE reads as more than themselves. *)
Fixpoint like_plain (query_ : string) : bool :=
  match query_ with
  | EmptyString => true
  | String c rest =>
      negb (Ascii.eqb c Sql.percent) && negb (Ascii.eqb c Sql.underscore)
      && negb (Ascii.eqb c Sql.backslash) && like_plain rest
  end.

(** The rows that a search is to show. *)
Definition found (d : Database) (query_ : string) (filters : option Filters.t)
    (doc : documents.row) : Prop :=
  documents.isLatestVersion doc = true
  /\ text_like query_ doc = true
  /\ passes filters doc
  /\ has_creator d doc
  /\ has_folder d doc.

#[export] Instance found_dec d query_ filters doc : Decision (found d query_ filters doc).
Proof. unfold found. apply _. Defined.

(** [doc] is the row [row] as a caller gets it: the columns of the
    row, its dates as ISO text to the millisecond; a [createdAt] or
    [updatedAt] that is NULL is the empty string. *)
Definition iso_text (t : Timestamp) : string := toISOString (t / 1000).

Definition handed_over (row : documents.row) (doc : Document) : Prop :=
  documents.id doc = documents.id row
  /\ documents.name doc = documents.name row
  /\ documents.originalName doc = documents.originalName row
  /\ documents.folderId doc = documents.folderId row
  /\ documents.fileType doc = documents.fileType row
  /\ documents.fileSize doc = documents.fileSize row
  /\ documents.filePath doc = documents.filePath row
  /\ documents.mimeType doc = documents.mimeType row
  /\ documents.status doc = documents.status row
  /\ documents.tags doc = documents.tags row
  /\ documents.description doc = documents.description row
  /\ documents.version doc = documents.version row
  /\ documents.isLatestVersion doc = documents.isLatestVersion row
  /\ documents.parentDocumentId doc = documents.parentDocumentId row
  /\ documents.expirationDate doc = iso_text <$> documents.expirationDate row
  /\ documents.createdBy doc = documents.createdBy row
  /\ documents.createdAt doc = default "" (iso_text <$> documents.createdAt row)
  /\ documents.updatedAt doc = default "" (iso_text <$> documents.updatedAt row).

(** A row of a result as a caller gets it, with the creator and the
    folder it was joined with. *)
Definition handed_over_details (r : WithDetails documents.row) (x : WithDetails Document)
    : Prop :=
  handed_over (document r) (document x)
  /\ createdByUser x = createdByUser r
  /\ folder x = folder r.

(** The order of a result: [createdAt] descending. *)
Definition newest_first : relation (WithDetails documents.row) :=
  Sql.desc (fun r => documents.createdAt (document r)).

(** [filters] with [t] as its [tags] key, and without the key. *)
Definition with_tags (f : Filters.t) (t : option (list string)) : Filters.t :=
  {| Filters.fileType := Filters.fileType f;
     Filters.status := Filters.status f;
     Filters.createdBy := Filters.createdBy f;
     Filters.tags := t;
     Filters.dateFrom := Filters.dateFrom f;
     Filters.dateTo := Filters.dateTo f |}.

Definition without_tags (f : Filters.t) : Filters.t := with_tags f None.

(** The columns of [new] are those of [old], except the keys that
    [document] holds and [updatedAt], which is [now] to the millisecond. *)
Definition written_by (now : Timestamp) (document : UpdateDocument.t)
    (old new : documents.row) : Prop :=
  documents.id new = documents.id old
  /\ documents.originalName new = documents.originalName old
  /\ documents.fileType new = documents.fileType old
  /\ documents.fileSize new = documents.fileSize old
  /\ documents.filePath new = documents.filePath old
  /\ documents.mimeType new = documents.mimeType old
  /\ documents.version new = documents.version old
  /\ documents.isLatestVersion new = documents.isLatestVersion old
  /\ documents.parentDocumentId new = documents.parentDocumentId old
  /\ documents.createdBy new = documents.createdBy old
  /\ documents.createdAt new = documents.createdAt old
  /\ documents.updatedAt new = Some (now / 1000 * 1000)
  /\ documents.name new = default (documents.name old) (UpdateDocument.name document)
  /\ documents.folderId new
     = default (documents.folderId old) (UpdateDocument.folderId document)
  /\ documents.tags new = default (documents.tags old) (UpdateDocument.tags document)
  /\ documents.description new
     = default (documents.description old) (UpdateDocument.description document)
  /\ documents.status new = default (documents.status old) (UpdateDocument.status document)
  /\ documents.expirationDate new
     = default (documents.expirationDate old)
         (fmap (M := option) (fun t => t * 1000) <$> UpdateDocument.expirationDate document).

(** Two worlds that differ in the [documents] table at most. *)
Definition same_but_documents (w w' : World) : Prop :=
  users (db w') = users (db w)
  /\ folders (db w') = folders (db w)
  /\ documentPermissions (db w') = documentPermissions (db w)
  /\ documentShares (db w') = documentShares (db w)
  /\ activityLog (db w') = activityLog (db w)
  /\ disk w' = disk w
  /\ console w' = console w.

(** Two worlds with the same rows in every table but [activity_log],
    and the same files. *)
Definition same_but_activityLog (w w' : World) : Prop :=
  users (db w') = users (db w)
  /\ folders (db w') = folders (db w)
  /\ documents (db w') = documents (db w)
  /\ documentPermissions (db w') = documentPermissions (db w)
  /\ documentShares (db w') = documentShares (db w)
  /\ disk w' = disk w.

(** The keys that the joins rely on: user ids and folder ids are serial
    primary keys, and the folder sequence is ahead of every folder id. *)
Definition keys_ok (w : World) : Prop :=
  primary_key users.id (users (db w))
  /\ primary_key folders.id (folders (db w))
  /\ Forall (fun f => folders.id f < folders_id_seq (db w)) (folders (db w))
  /\ 1 <= folders_id_seq (db w).

(** The users, the folders and the folder sequence are as they were. *)
Definition same_folders (w w' : World) : Prop :=
  users (db w') = users (db w)
  /\ folders (db w') = folders (db w)
  /\ folders_id_seq (db w') = folders_id_seq (db w).

(** A call of a storage method or of a route, and the world it leaves. *)
Inductive Call :=
| CreateFolder (now : Timestamp) (folder : InsertFolder.t)
| CreateDocument (now : Timestamp) (document : InsertDocument.t)
| UpdateDocument (now : Timestamp) (id : Z) (document : UpdateDocument.t)
| DeleteDocument (id : Z)
| LogActivity (now : Timestamp) (userId : Z) (action resourceType : string) (resourceId : Z)
    (metadata : option (list (string * Json)))
| DeleteRoute (now : Timestamp) (id : Z)
| ShareRoute (now : Timestamp) (shareToken : string) (id : Z) (req : Request.t).

Definition exec (c : Call) (w : World) : World :=
  match c with
  | CreateFolder now folder => (createFolder now folder w).2
  | CreateDocument now document => (createDocument now document w).2
  | UpdateDocument now id document => (updateDocument now id document w).2
  | DeleteDocument id => (deleteDocument id w).2
  | LogActivity now userId action resourceType resourceId metadata =>
      (logActivity now userId action resourceType resourceId metadata w).2
  | DeleteRoute now id => (delete_document now id w).2
  | ShareRoute now shareToken id req => (share_document now shareToken id req w).2
  end.

(** ** Sample worlds *)

Module Sample.

Definition admin : User :=
  {| users.id := 1; users.username := "admin"; users.email := "admin@example.com";
     users.firstName := Some "Admin"; users.lastName := Some "User";
     users.role := "admin"; users.createdAt := Some 0; users.updatedAt := Some 0 |}.

(** The database after the default user is created: no folder, no document. *)
Definition empty : World :=
  {| db := {| users := [admin]; folders := []; documents := [];
              documentPermissions := []; documentShares := []; activityLog := [];
              folders_id_seq := 1; documents_id_seq := 1; activity_log_id_seq := 1 |};
     disk := ∅;
     console := [] |}.

Definition new_folder (name : string) (parentId : option Z) : InsertFolder.t :=
  {| InsertFolder.name := name; InsertFolder.parentId := Some parentId;
     InsertFolder.type := Some "standard"; InsertFolder.permissions := Some [];
     InsertFolder.createdBy := 1 |}.

(** An upload of [name] into folder [folderId], as the upload route builds it. *)
Definition upload (name : string) (folderId : Z) : InsertDocument.t :=
  {| InsertDocument.name := name; InsertDocument.originalName := name;
     InsertDocument.folderId := folderId; InsertDocument.fileType := "txt";
     InsertDocument.fileSize := 10; InsertDocument.filePath := "uploads/" +:+ name;
     InsertDocument.mimeType := "text/plain"; InsertDocument.tags := Some (Some []);
     InsertDocument.description := None; InsertDocument.expirationDate := None;
     InsertDocument.createdBy := 1 |}.

(** The world an action leaves behind. *)
Definition after {A} (m : M A) (w : World) : World := (m w).2.

(** One root folder "Accounting" (id 1). *)
Definition one_folder : World := after (createFolder 100 (new_folder "Accounting" None)) empty.

Definition accounting : Folder :=
  {| folders.id := 1; folders.name := "Accounting"; folders.parentId := None;
     folders.path := "Accounting"; folders.type := "standard";
     folders.permissions := Some []; folders.createdBy := 1;
     folders.createdAt := Some 100; folders.updatedAt := Some 100 |}.

(** "a" uploaded into folder 1; its file is not on the disk. *)
Definition one_document : World := after (createDocument 200 (upload "a" 1)) one_folder.

(** "a" uploaded with [folderId = 77], a folder that does not exist. *)
Definition stray_document : World := after (createDocument 200 (upload "a" 77)) one_folder.

(** A row of an older version, as the schema allows it: [isLatestVersion = false]. *)
Definition old_version : documents.row :=
  {| documents.id := 1; documents.name := "report.txt";
     documents.originalName := "report.txt"; documents.folderId := 1;
     documents.fileType := "txt"; documents.fileSize := 10;
     documents.filePath := "uploads/report.txt"; documents.mimeType := "text/plain";
     documents.status := "draft"; documents.tags := Some [];
     documents.description := None; documents.version := 1;
     documents.isLatestVersion := false; documents.parentDocumentId := None;
     documents.expirationDate := None; documents.createdBy := 1;
     documents.createdAt := Some 200; documents.updatedAt := Some 200 |}.

Definition with_old_version : World :=
  with_db one_folder (with_documents (db one_folder) [old_version]).

Definition rename : UpdateDocument.t :=
  {| UpdateDocument.name := Some "b"; UpdateDocument.folderId := None;
     UpdateDocument.tags := None; UpdateDocument.description := None;
     UpdateDocument.status := None; UpdateDocument.expirationDate := None |}.

End Sample.

(** ** The rest of DatabaseStorage (server/storage.ts) *)

(** [console.log]: a line on the same console. *)
Definition console_log (line : string) : M unit := console_error line.

(** [asc(column)] on a text column: the strings in their byte order. *)
Definition asc_text {R} (column : R -> string) : relation R :=
  fun r1 r2 => String.leb (column r1) (column r2).

#[export] Instance asc_text_dec {R} (column : R -> string) (r1 r2 : R) :
  Decision (asc_text column r1 r2).
Proof. unfold asc_text. apply _. Defined.

(** [column IS NULL] *)
Definition is_null {A} (column : option A) : option bool :=
  match column with None => Some true | Some _ => Some false end.

Definition with_folders (d : Database) (rows : list Folder) : Database :=
  {| users := users d;
     folders := rows;
     documents := documents d;
     documentPermissions := documentPermissions d;
     documentShares := documentShares d;
     activityLog := activityLog d;
     folders_id_seq := folders_id_seq d;
     documents_id_seq := documents_id_seq d;
     activity_log_id_seq := activity_log_id_seq d |}.

(** [UPDATE folders SET ... WHERE c RETURNING *] *)
Definition update_folders (c : Folder -> option bool) (set : Folder -> Folder)
    (d : Database) : list Folder * Database :=
  (set <$> Sql.where_ c (folders d),
   with_folders d ((fun r => if Sql.holds (c r) then set r else r) <$> folders d)).

(** [DELETE FROM folders WHERE c] *)
Definition delete_folders (c : Folder -> option bool) (d : Database) : unit * Database :=
  (tt, with_folders d (filter (fun r => negb (Sql.holds (c r))) (folders d))).

(** [Partial<Folder>]: every column of a folder, each optional. A key
    that the store refuses (an id that another row has) is outside the
    model, as the other failures of the store are. *)
Module PartialFolder.
Record t := {
  id : option Z;
  name : option string;
  parentId : option (option Z);
  path : option string;
  type : option string;
  permissions : option (option (list (string * list string)));
  createdBy : option Z;
  createdAt : option (option Date);
  updatedAt : option (option Date);
}.
End PartialFolder.

Definition getFolders : M (list Folder) :=
  try_catch
    (result <- query (fun d => Sql.orderBy (asc_text folders.path) (folders d)) ;;
     console_log "Fetched folders:" ;;;
     ret result)
    (fun error =>
       console_error "Erreur dans getFolders:" ;;;
       throw error).

Definition getFoldersByParent (parentId : option Z) : M (list Folder) :=
  let condition :=
    match parentId with
    | None => fun f => is_null (folders.parentId f)
    | Some p => fun f => Sql.eq (folders.parentId f) (Some p)
    end in
  query (fun d => Sql.orderBy (asc_text folders.name) (Sql.where_ condition (folders d))).

(** [.set({ ...folder, updatedAt: new Date() })] *)
Definition set_folder (now : Timestamp) (folder : PartialFolder.t) (row : Folder) : Folder :=
  {| folders.id := or_default (PartialFolder.id folder) (folders.id row);
     folders.name := or_default (PartialFolder.name folder) (folders.name row);
     folders.parentId := or_default (PartialFolder.parentId folder) (folders.parentId row);
     folders.path := or_default (PartialFolder.path folder) (folders.path row);
     folders.type := or_default (PartialFolder.type folder) (folders.type row);
     folders.permissions :=
       or_default (PartialFolder.permissions folder) (folders.permissions row);
     folders.createdBy := or_default (PartialFolder.createdBy folder) (folders.createdBy row);
     folders.createdAt :=
       or_default (Sql.of_nullable_Date <$> PartialFolder.createdAt folder) (folders.createdAt row);
     folders.updatedAt := Some (Sql.of_Date (new_Date now)) |}.

(** The method returns [updatedFolder] as it is: [undefined] when no
    row has the id. *)
Definition updateFolder (now : Timestamp) (id : Z) (folder : PartialFolder.t)
    : M (option Folder) :=
  rows <- statement (update_folders
    (fun r => Sql.eq (Some (folders.id r)) (Some id))
    (set_folder now folder)) ;;
  ret (head rows).

Definition deleteFolder (id : Z) : M unit :=
  statement (delete_folders (fun r => Sql.eq (Some (folders.id r)) (Some id))).

(** An entry of the activity log with the user who acted. *)
Record ActivityWithUser := {
  entry : ActivityLog;
  user : User;
}.

Definition by_logged_desc : relation (ActivityLog * User) :=
  Sql.desc (fun r => activityLog.createdAt r.1).

(** [limit] is a count that the store accepts (not negative); [None] is
    the argument left out, which is 50. *)
Definition getRecentActivity (limit : option nat) : M (list ActivityWithUser) :=
  query (fun d =>
    (fun r => {| entry := r.1; user := r.2 |}) <$>
      take (default 50%nat limit)
        (Sql.orderBy by_logged_desc
           (Sql.innerJoin (activityLog d) (users d)
              (fun a u => Sql.eq (Some (activityLog.userId a)) (Some (users.id u)))))).

(** ** The rest of the document routes (server/routes.ts) *)

(** What a route answers: a status and, as JSON, a value or a message. *)
Inductive Payload (A : Type) :=
| Data (a : A)
| Failure (message : string).
Arguments Data {A} a.
Arguments Failure {A} message.

Record Reply (A : Type) := {
  code : Z;
  payload : Payload A;
}.
Arguments code {A} r.
Arguments payload {A} r.

(** [res.json(a)] and [res.status(c).json({ message })] *)
Definition send {A} (a : A) : Reply A := {| code := 200; payload := Data a |}.
Definition send_status {A} (c : Z) (message : string) : Reply A :=
  {| code := c; payload := Failure message |}.

(** [fs.existsSync(path)] *)
Definition existsSync (path : string) : M bool :=
  fun w => (Return (bool_decide (path ∈ disk w)), w).

(** [app.get("/api/documents/:id", ...)] *)
Definition get_document (id : Z) : M (Reply (WithDetails Document)) :=
  try_catch
    (found <- getDocumentById id ;;
     match found with
     | None => ret (send_status 404 "Document not found")
     | Some doc => ret (send doc)
     end)
    (fun error =>
       console_error "Error fetching document:" ;;;
       ret (send_status 500 "Failed to fetch document")).

(** [app.put("/api/documents/:id", ...)]; [documentData] is the body
    that [updateDocumentSchema.parse] accepted. *)
Definition put_document (now : Timestamp) (id : Z) (documentData : UpdateDocument.t)
    : M (Reply Document) :=
  try_catch
    (doc <- updateDocument now id documentData ;;
     logActivity now getCurrentUserId "update_document" "document" id None ;;;
     ret (send doc))
    (fun error =>
       console_error "Error updating document:" ;;;
       ret (send_status 500 "Failed to update document")).

(** [app.get("/api/documents/:id/download", ...)]; the answer is
    [res.download(filePath, originalName)]. *)
Definition download_document (now : Timestamp) (id : Z) : M (Reply (string * string)) :=
  try_catch
    (found <- getDocumentById id ;;
     match found with
     | None => ret (send_status 404 "Document not found")
     | Some doc =>
         on_disk <- existsSync (documents.filePath (document doc)) ;;
         if negb on_disk then ret (send_status 404 "File not found on disk")
         else
           logActivity now getCurrentUserId "download_document" "document" id None ;;;
           ret (send (documents.filePath (document doc),
                      documents.originalName (document doc)))
     end)
    (fun error =>
       console_error "Error downloading document:" ;;;
       ret (send_status 500 "Failed to download document")).

(** [app.post("/api/documents/:id/favorite", ...)] *)
Definition favorite_document (now : Timestamp) (id : Z) : M (Reply (bool * string)) :=
  try_catch
    (logActivity now getCurrentUserId "favorite_document" "document" id None ;;;
     ret (send (true, "Document favorite status updated")))
    (fun error =>
       console_error "Error updating favorite status:" ;;;
       ret (send_status 500 "Failed to update favorite status")).

(** The row that [createDocument] inserts. *)
Definition new_document (now : Timestamp) (document : InsertDocument.t) (id : Z) : documents.row :=
  {| documents.id := id;
     documents.name := InsertDocument.name document;
     documents.originalName := InsertDocument.originalName document;
     documents.folderId := InsertDocument.folderId document;
     documents.fileType := InsertDocument.fileType document;
     documents.fileSize := InsertDocument.fileSize document;
     documents.filePath := InsertDocument.filePath document;
     documents.mimeType := InsertDocument.mimeType document;
     documents.status := "draft";
     documents.tags := or_default (InsertDocument.tags document) (Some []);
     documents.description := or_default (InsertDocument.description document) None;
     documents.version := 1;
     documents.isLatestVersion := true;
     documents.parentDocumentId := None;
     documents.expirationDate :=
       or_default (Sql.of_nullable_Date <$> InsertDocument.expirationDate document) None;
     documents.createdBy := InsertDocument.createdBy document;
     documents.createdAt := Some now;
     documents.updatedAt := Some now |}.


(** A file as multer hands it to the upload route. *)
Module File.
Record t := {
  originalname : string;
  size : Z;
  path : string;
  mimetype : string;
}.
End File.

(** [s.split(',')] *)
Fixpoint split_comma (s : string) : list string :=
  match s with
  | EmptyString => [""]
  | String c rest =>
      if Ascii.eqb c ","%char then "" :: split_comma rest
      else match split_comma rest with
           | [] => [String c ""]
           | part :: parts => String c part :: parts
           end
  end.

(** [s.substring(1)] *)
Definition substring_1 (s : string) : string :=
  match s with EmptyString => "" | String _ rest => rest end.

Section Upload.

(** [path.extname], [String.prototype.toLowerCase] and
    [String.prototype.trim], as the platform has them. *)
Variable extname : string -> string.
Variable toLowerCase : string -> string.
Variable trim : string -> string.

(** [req.body.tags ? req.body.tags.split(',').map(tag => tag.trim()) : []] *)
Definition upload_tags (tags : option string) : list string :=
  match tags with
  | Some t => if truthy_str (Some t) then trim <$> split_comma t else []
  | None => []
  end.

Definition documentData (file : File.t) (folderId : Z) (tags : list string)
    : InsertDocument.t :=
  {| InsertDocument.name := File.originalname file;
     InsertDocument.originalName := File.originalname file;
     InsertDocument.folderId := folderId;
     InsertDocument.fileType := toLowerCase (substring_1 (extname (File.originalname file)));
     InsertDocument.fileSize := File.size file;
     InsertDocument.filePath := File.path file;
     InsertDocument.mimeType := File.mimetype file;
     InsertDocument.tags := Some (Some tags);
     InsertDocument.description := None;
     InsertDocument.expirationDate := None;
     InsertDocument.createdBy := getCurrentUserId |}.

(** [for (const file of files) { ... uploadedDocuments.push(document) }] *)
Fixpoint upload_each (now : Timestamp) (folderId : Z) (tags : list string)
    (files : list File.t) (uploadedDocuments : list Document) : M (list Document) :=
  match files with
  | [] => ret uploadedDocuments
  | file :: rest =>
      doc <- createDocument now (documentData file folderId tags) ;;
      logActivity now getCurrentUserId "upload_document" "document" (documents.id doc) None ;;;
      upload_each now folderId tags rest (uploadedDocuments ++ [doc])
  end.

(** The rows that the loop inserts when the sequence is at [first]. *)
Fixpoint uploaded_rows (now : Timestamp) (folderId : Z) (tags : list string)
    (files : list File.t) (first : Z) : list documents.row :=
  match files with
  | [] => []
  | file :: rest =>
      new_document now (documentData file folderId tags) first
      :: uploaded_rows now folderId tags rest (first + 1)
  end.

(** [app.post("/api/documents/upload", ...)]; [files] is [req.files],
    [folderId] is [parseInt(req.body.folderId)] and [tags] is
    [req.body.tags]. *)
Definition upload_documents (now : Timestamp) (files : option (list File.t)) (folderId : Z)
    (tags : option string) : M (Reply (list Document)) :=
  try_catch
    (let tags := upload_tags tags in
     match files with
     | None | Some [] => ret (send_status 400 "No files uploaded")
     | Some files =>
         uploadedDocuments <- upload_each now folderId tags files [] ;;
         ret (send uploadedDocuments)
     end)
    (fun error =>
       console_error "Error uploading documents:" ;;;
       ret (send_status 500 "Failed to upload documents")).

End Upload.

(** ** More words of the specification *)

(** The document ids are a serial key: no two rows share an id and the
    sequence is ahead of every id. *)
Definition documents_key_ok (w : World) : Prop :=
  NoDup (documents.id <$> documents (db w))
  /\ Forall (fun d => documents.id d < documents_id_seq (db w)) (documents (db w)).

(** The raw row [row] shows the folder row [f]: the values of [f]
    under the SQL names of the columns, its timestamps as the store
    prints them. *)
Definition shows (row : RawFolder.t) (f : Folder) : Prop :=
  RawFolder.id row = folders.id f
  /\ RawFolder.name row = folders.name f
  /\ RawFolder.parent_id row = folders.parentId f
  /\ RawFolder.path row = folders.path f
  /\ RawFolder.type row = folders.type f
  /\ RawFolder.permissions row = folders.permissions f
  /\ RawFolder.created_by row = folders.createdBy f
  /\ RawFolder.created_at row = Sql.timestamp_out <$> folders.createdAt f
  /\ RawFolder.updated_at row = Sql.timestamp_out <$> folders.updatedAt f.

(** The folder sequence is ahead of every folder id. *)
Definition folders_fresh (w : World) : Prop :=
  Forall (fun f => folders.id f < folders_id_seq (db w)) (folders (db w)).

(** Every call that is modelled, with the world it leaves. *)
Inductive Op :=
| Base (c : Call)
| GetFolders
| UpdateFolder (now : Timestamp) (id : Z) (folder : PartialFolder.t)
| DeleteFolder (id : Z)
| GetRoute (id : Z)
| PutRoute (now : Timestamp) (id : Z) (documentData : UpdateDocument.t)
| DownloadRoute (now : Timestamp) (id : Z)
| FavoriteRoute (now : Timestamp) (id : Z)
| UploadRoute (extname toLowerCase trim : string -> string) (now : Timestamp)
    (files : option (list File.t)) (folderId : Z) (tags : option string).

Definition run (o : Op) (w : World) : World :=
  match o with
  | Base c => exec c w
  | GetFolders => (getFolders w).2
  | UpdateFolder now id folder => (updateFolder now id folder w).2
  | DeleteFolder id => (deleteFolder id w).2
  | GetRoute id => (get_document id w).2
  | PutRoute now id documentData => (put_document now id documentData w).2
  | DownloadRoute now id => (download_document now id w).2
  | FavoriteRoute now id => (favorite_document now id w).2
  | UploadRoute extname toLowerCase trim now files folderId tags =>
      (upload_documents extname toLowerCase trim now files folderId tags w).2
  end.

(** From [w] to [w'] the users, the permissions and the shares are
    untouched and the activity log has only grown. *)
Definition log_grows (w w' : World) : Prop :=
  users (db w') = users (db w)
  /\ documentPermissions (db w') = documentPermissions (db w)
  /\ documentShares (db w') = documentShares (db w)
  /\ activityLog (db w) `prefix_of` activityLog (db w').

(** The integers [first], [first + 1], ..., [n] of them. *)
Fixpoint serial_ids (first : Z) (n : nat) : list Z :=
  match n with
  | O => []
  | S n' => first :: serial_ids (first + 1) n'
  end.

Module Sample2.

(** [Sample.one_document] with the file of its document on the disk. *)
Definition with_file : World :=
  {| db := db Sample.one_document; disk := {["uploads/a"]}; console := [] |}.

Definition two_files : list File.t :=
  [ {| File.originalname := "a.txt"; File.size := 10;
       File.path := "uploads/files-1"; File.mimetype := "text/plain" |};
    {| File.originalname := "b.txt"; File.size := 20;
       File.path := "uploads/files-2"; File.mimetype := "text/plain" |} ].

Definition rename_folder : PartialFolder.t :=
  {| PartialFolder.id := None; PartialFolder.name := Some "Finance";
     PartialFolder.parentId := None; PartialFolder.path := None;
     PartialFolder.type := None; PartialFolder.permissions := None;
     PartialFolder.createdBy := None; PartialFolder.createdAt := None;
     PartialFolder.updatedAt := None |}.

(** "a" uploaded into folder 1 half a millisecond after
    2023-11-14T22:13:20.000Z. *)
Definition late_document : World :=
  Sample.after (createDocument 1700000000000500 (Sample.upload "a" 1)) Sample.one_folder.

(** The filters [{ dateTo }]. *)
Definition until (dateTo : Date) : Filters.t :=
  {| Filters.fileType := None; Filters.status := None; Filters.createdBy := None;
     Filters.tags := None; Filters.dateFrom := None; Filters.dateTo := Some dateTo |}.

End Sample2.

(** * Properties *)

(** ** toISOString on known dates *)

Example toISOString_epoch : toISOString 0 = "1970-01-01T00:00:00.000Z".
Proof. reflexivity. Qed.

Example toISOString_2023 : toISOString 1700000000000 = "2023-11-14T22:13:20.000Z".
Proof. reflexivity. Qed.

Example toISOString_leap_day : toISOString 951782400000 = "2000-02-29T00:00:00.000Z".
Proof. reflexivity. Qed.

Example toISOString_before_epoch : toISOString (-1) = "1969-12-31T23:59:59.999Z".
Proof. reflexivity. Qed.

(** ** Timestamps as the store prints them and as a Date reads them *)

Example timestamp_out_epoch : Sql.timestamp_out 0 = "1970-01-01 00:00:00".
Proof. reflexivity. Qed.

Example timestamp_out_2023 :
  Sql.timestamp_out 1700000000123456 = "2023-11-14 22:13:20.123456"
  /\ Sql.timestamp_out 1700000000120000 = "2023-11-14 22:13:20.12"
  /\ toISOString (Sql.to_Date 1700000000123456) = "2023-11-14T22:13:20.123Z".
Proof. repeat split. Qed.

Example timestamp_out_before_year_1 :
  Sql.timestamp_out (-62167219200000000) = "0001-01-01 00:00:00 BC".
Proof. reflexivity. Qed.

(** A [Date] that goes to the store and comes back is the same [Date];
    a timestamp that comes back as a [Date] has lost what is below the
    millisecond. *)
Lemma to_Date_of_Date (d : Date) : Sql.to_Date (Sql.of_Date d) = d.
Proof. unfold Sql.to_Date, Sql.of_Date. now rewrite Z.div_mul. Qed.

Lemma of_Date_to_Date (t : Timestamp) :
  Sql.of_Date (Sql.to_Date t) <= t < Sql.of_Date (Sql.to_Date t) + 1000.
Proof.
  unfold Sql.to_Date, Sql.of_Date.
  pose proof (Z.mul_div_le t 1000). pose proof (Z.mul_succ_div_gt t 1000). lia.
Qed.

(** ** Truthiness *)

Lemma or_num_Some (n : Z) : or_num (Some n) 0 = n.
Proof.
  unfold or_num, truthy_num. destruct (Z.eqb_spec n 0) as [->|]; reflexivity.
Qed.

Lemma truthy_num_Some (n : Z) : n <> 0 -> truthy_num (Some n) = true.
Proof. intros Hn. unfold truthy_num. destruct (Z.eqb_spec n 0); [contradiction | reflexivity]. Qed.

(** ** SQL conditions *)

Lemma holds_eq {A} `{EqDecision A} (x y : A) :
  Sql.holds (Sql.eq (Some x) (Some y)) <-> x = y.
Proof.
  unfold Sql.holds, Sql.eq. case_bool_decide; simpl; intuition.
Qed.

Lemma holds_le (x : option Z) (y : Z) :
  Sql.holds (Sql.le x (Some y)) <-> match x with Some a => a <= y | None => False end.
Proof.
  destruct x as [a|]; simpl; [|tauto].
  destruct (Z.leb_spec a y); simpl; intuition lia.
Qed.

Lemma holds_ge (x : option Z) (y : Z) :
  Sql.holds (Sql.ge x (Some y)) <-> match x with Some a => y <= a | None => False end.
Proof.
  destruct x as [a|]; simpl; [|tauto].
  destruct (Z.leb_spec y a); simpl; intuition lia.
Qed.

Lemma where_latest (rows : list documents.row) :
  Sql.where_ (fun r => Sql.eq (Some (documents.isLatestVersion r)) (Some true)) rows
  = filter (fun r => documents.isLatestVersion r = true) rows.
Proof. apply list_filter_iff. intros r. apply holds_eq. Qed.

Lemma sum_or_0 {R} (column : R -> Z) (rows : list R) :
  or_num (Sql.sum column rows) 0 = foldr Z.add 0 (column <$> rows).
Proof.
  destruct rows as [|r rows]; [reflexivity|].
  unfold Sql.sum. rewrite or_num_Some. simpl. f_equal.
  induction rows as [|r' rows IH]; simpl; [reflexivity | now rewrite IH].
Qed.

(** ** getDocumentStats *)

(** C6: the four statistics are computed over exactly the rows with
    [isLatestVersion = true]: their number, the number of those whose
    expiration date is at most seven days after [now] (the clock read
    to the millisecond, as [Date.now()] reads it), the number of those
    with status 'pending', and the sum of their file sizes, each of
    them 0 when there is no such row. *)
Theorem getDocumentStats_latest (now : Timestamp) (w : World) :
  let latest := latest_documents (db w) in
  getDocumentStats now w
  = (Return
       {| totalDocuments := Z.of_nat (length latest);
          expiringDocuments :=
            Z.of_nat (length (filter (expires_by ((now / 1000 + 7 * 86400000) * 1000)) latest));
          pendingDocuments :=
            Z.of_nat (length (filter (fun r => documents.status r = "pending") latest));
          totalStorage := foldr Z.add 0 (documents.fileSize <$> latest) |},
     w)
  /\ (latest = [] ->
      getDocumentStats now w
      = (Return {| totalDocuments := 0; expiringDocuments := 0;
                   pendingDocuments := 0; totalStorage := 0 |}, w)).
Proof.
  intros latest.
  assert (Hrun : getDocumentStats now w
    = (Return
       {| totalDocuments := Z.of_nat (length latest);
          expiringDocuments :=
            Z.of_nat (length (filter (expires_by ((now / 1000 + 7 * 86400000) * 1000)) latest));
          pendingDocuments :=
            Z.of_nat (length (filter (fun r => documents.status r = "pending") latest));
          totalStorage := foldr Z.add 0 (documents.fileSize <$> latest) |},
     w)).
  { unfold getDocumentStats, bind, query, ret. cbn beta iota.
    rewrite where_latest. fold (latest_documents (db w)). fold latest.
    rewrite !or_num_Some, sum_or_0. unfold Sql.count_filter, Sql.count_star.
    do 3 f_equal.
    - f_equal. f_equal. apply list_filter_iff. intros r.
      rewrite holds_le. unfold expires_by.
      unfold Sql.of_Date, new_Date.
      replace (now / 1000 + 7 * 24 * 60 * 60 * 1000) with (now / 1000 + 7 * 86400000) by lia.
      reflexivity.
    - f_equal. f_equal. apply list_filter_iff. intros r. apply holds_eq. }
  split; [exact Hrun|].
  intros Hnil. rewrite Hrun, Hnil. reflexivity.
Qed.

(** ** searchDocuments and the tags filter *)

Lemma with_tags_same (f : Filters.t) : with_tags f (Filters.tags f) = f.
Proof. destruct f; reflexivity. Qed.

Lemma search_conditions_tags (query_ : string) (f : Filters.t) (t : option (list string)) :
  search_conditions query_ (Some (with_tags f t)) = search_conditions query_ (Some f).
Proof. destruct f; reflexivity. Qed.

(** C5: a search with the filters [f] and the same search with [f]
    without its [tags] key give the same result, and so does the search
    with any other value of [tags]: the key is never read. *)
Theorem searchDocuments_tags_ignored (query_ : string) (f : Filters.t) (w : World) :
  searchDocuments query_ (Some f) w = searchDocuments query_ (Some (without_tags f)) w
  /\ forall t, searchDocuments query_ (Some (with_tags f t)) w
              = searchDocuments query_ (Some f) w.
Proof.
  assert (Hany : forall t,
    searchDocuments query_ (Some (with_tags f t)) w = searchDocuments query_ (Some f) w).
  { intros t. unfold searchDocuments. now rewrite search_conditions_tags. }
  split; [|exact Hany].
  symmetry. apply Hany.
Qed.

(** ** Lookups by key *)

Lemma filter_key_absent {R} (key : R -> Z) (k : Z) (rows : list R) :
  (forall r, r ∈ rows -> key r <> k) -> filter (fun r => key r = k) rows = [].
Proof.
  intros Hno. induction rows as [|r rows IH]; [reflexivity|].
  rewrite filter_cons. destruct (decide (key r = k)) as [Heq|_].
  - exfalso. apply (Hno r); [left | exact Heq].
  - apply IH. intros r' Hin. apply Hno. now right.
Qed.

Lemma filter_key_unique {R} (key : R -> Z) (rows : list R) (r : R) :
  NoDup (key <$> rows) -> r ∈ rows -> filter (fun x => key x = key r) rows = [r].
Proof.
  induction rows as [|x rows IH]; intros Hnd Hin.
  - inversion Hin.
  - rewrite fmap_cons in Hnd. apply NoDup_cons in Hnd as [Hx Hnd].
    rewrite filter_cons. apply elem_of_cons in Hin as [->|Hin].
    + rewrite decide_True by reflexivity. f_equal.
      apply filter_key_absent. intros r' Hr' Heq. apply Hx.
      rewrite <- Heq. apply list_elem_of_fmap. now exists r'.
    + rewrite decide_False; [now apply IH|].
      intros Heq. apply Hx. rewrite Heq. apply list_elem_of_fmap. now exists r.
Qed.

Lemma where_key {R} (key : R -> Z) (k : Z) (rows : list R) :
  Sql.where_ (fun r => Sql.eq (Some (key r)) (Some k)) rows
  = filter (fun r => key r = k) rows.
Proof. apply list_filter_iff. intros r. apply holds_eq. Qed.

Lemma getFolderById_run (id : Z) (w : World) :
  getFolderById id w
  = (Return (head (filter (fun f => folders.id f = id) (folders (db w)))), w).
Proof. unfold getFolderById, bind, query, ret. now rewrite where_key. Qed.

(** ** createFolder *)

(** The path that [createFolder] gives to a folder under [parentId]. *)
Lemma createFolder_run (now : Timestamp) (folder : InsertFolder.t) (parentId : option Z)
    (w : World) :
  InsertFolder.parentId folder = Some parentId ->
  exists path,
    createFolder now folder w
    = (Return (raw_folder (inserted_folder now folder parentId path (folders_id_seq (db w)))),
       with_db w (insert_folder (inserted_folder now folder parentId path) (db w)).2)
    /\ path
       = match parentId with
         | Some p =>
             if truthy_num (Some p)
             then interp (folders.path <$>
                            head (filter (fun f => folders.id f = p) (folders (db w))))
                  +:+ "/" +:+ InsertFolder.name folder
             else InsertFolder.name folder
         | None => InsertFolder.name folder
         end.
Proof.
  intros Hp. unfold createFolder. rewrite Hp.
  destruct parentId as [p|].
  - destruct (truthy_num (Some p)) eqn:Ht.
    + unfold bind at 1. unfold bind at 1. rewrite getFolderById_run.
      unfold ret, bind, statement. cbn. eauto.
    + unfold bind, ret, statement. cbn. eauto.
  - unfold bind, ret, statement. cbn. eauto.
Qed.

(** A call that leaves [parentId] out is refused by the store: nothing
    is inserted and the sequence is where it was. *)
Lemma createFolder_without_parentId (now : Timestamp) (folder : InsertFolder.t) (w : World) :
  InsertFolder.parentId folder = None ->
  createFolder now folder w = (Throw DatabaseError, w).
Proof. intros Hp. unfold createFolder. rewrite Hp. reflexivity. Qed.

(** C1, as the code has it: when [parentId] is a non-zero id that no
    folder has, [createFolder] does not fail with NotFound: it inserts
    a folder whose path is the text "undefined", "/" and the name, and
    returns it. *)
Theorem createFolder_absent_parent (now : Timestamp) (folder : InsertFolder.t) (p : Z)
    (w : World) :
  InsertFolder.parentId folder = Some (Some p) ->
  p <> 0 ->
  (forall f, f ∈ folders (db w) -> folders.id f <> p) ->
  exists (row : RawFolder.t) (f : Folder) (w' : World),
    createFolder now folder w = (Return row, w')
    /\ folders (db w') = folders (db w) ++ [f]
    /\ folders.parentId f = Some p
    /\ folders.path f = "undefined/" +:+ InsertFolder.name folder
    /\ RawFolder.id row = folders.id f
    /\ RawFolder.parent_id row = Some p
    /\ RawFolder.path row = "undefined/" +:+ InsertFolder.name folder.
Proof.
  intros Hp Hnz Habsent.
  destruct (createFolder_run now folder (Some p) w Hp) as (path & Hrun & Hpath).
  rewrite truthy_num_Some in Hpath by exact Hnz.
  rewrite filter_key_absent in Hpath by exact Habsent. cbn in Hpath. subst path.
  do 3 eexists. split; [exact Hrun|]. cbn. repeat split.
Qed.

Lemma createFolder_absent_parent_99 :
  exists (row : RawFolder.t) (f : Folder) (w' : World),
    createFolder 300 (Sample.new_folder "Invoices" (Some 99)) Sample.one_folder
    = (Return row, w')
    /\ folders (db w') = folders (db Sample.one_folder) ++ [f]
    /\ folders.parentId f = Some 99
    /\ folders.path f = "undefined/Invoices"
    /\ RawFolder.id row = folders.id f
    /\ RawFolder.parent_id row = Some 99
    /\ RawFolder.path row = "undefined/Invoices".
Proof.
  apply (createFolder_absent_parent 300 (Sample.new_folder "Invoices" (Some 99)) 99).
  - reflexivity.
  - lia.
  - intros f Hf. vm_compute in Hf. apply list_elem_of_singleton in Hf. subst f. vm_compute. lia.
Defined.

(** A [parentId] of 0 is non-null and yet read as no parent. *)
Lemma createFolder_parent_0 (now : Timestamp) (folder : InsertFolder.t) (w : World) :
  InsertFolder.parentId folder = Some (Some 0) ->
  exists (row : RawFolder.t) (f : Folder) (w' : World),
    createFolder now folder w = (Return row, w')
    /\ folders (db w') = folders (db w) ++ [f]
    /\ folders.parentId f = Some 0
    /\ folders.path f = InsertFolder.name folder
    /\ RawFolder.path row = InsertFolder.name folder.
Proof.
  intros Hp.
  destruct (createFolder_run now folder (Some 0) w Hp) as (path & Hrun & Hpath).
  cbn in Hpath. subst path.
  do 3 eexists. split; [exact Hrun|]. cbn. repeat split.
Qed.

(** C2: on a store whose folder ids are a serial primary key,
    [createFolder] returns the folder it inserts, whose path is the name
    when [parentId] is null and the parent's path, "/" and the name when
    [parentId] is the id of an existing folder. (A call that leaves
    [parentId] out is neither: [createFolder_without_parentId].) *)
Theorem createFolder_path (now : Timestamp) (folder : InsertFolder.t) (w : World) :
  primary_key folders.id (folders (db w)) ->
  (InsertFolder.parentId folder = Some None ->
   exists (row : RawFolder.t) (f : Folder) (w' : World),
     createFolder now folder w = (Return row, w')
     /\ folders (db w') = folders (db w) ++ [f]
     /\ RawFolder.id row = folders.id f
     /\ RawFolder.name row = InsertFolder.name folder
     /\ RawFolder.parent_id row = None
     /\ RawFolder.path row = InsertFolder.name folder
     /\ folders.path f = InsertFolder.name folder)
  /\ (forall P, P ∈ folders (db w) ->
      InsertFolder.parentId folder = Some (Some (folders.id P)) ->
      exists (row : RawFolder.t) (f : Folder) (w' : World),
        createFolder now folder w = (Return row, w')
        /\ folders (db w') = folders (db w) ++ [f]
        /\ RawFolder.id row = folders.id f
        /\ RawFolder.name row = InsertFolder.name folder
        /\ RawFolder.parent_id row = Some (folders.id P)
        /\ RawFolder.path row = folders.path P +:+ "/" +:+ InsertFolder.name folder
        /\ folders.path f = folders.path P +:+ "/" +:+ InsertFolder.name folder).
Proof.
  intros [Hnodup Hpos]. split.
  - intros Hnull.
    destruct (createFolder_run now folder None w Hnull) as (path & Hrun & ->).
    do 3 eexists. split; [exact Hrun|]. cbn. repeat split.
  - intros P HP Hsome.
    destruct (createFolder_run now folder (Some (folders.id P)) w Hsome)
      as (path & Hrun & Hpath).
    rewrite Forall_forall in Hpos. specialize (Hpos P HP).
    rewrite truthy_num_Some in Hpath by lia.
    rewrite (filter_key_unique folders.id _ P Hnodup HP) in Hpath. cbn in Hpath. subst path.
    do 3 eexists. split; [exact Hrun|]. cbn. repeat split.
Qed.

Lemma createFolder_path_child :
  exists (row : RawFolder.t) (f : Folder) (w' : World),
    createFolder 300 (Sample.new_folder "Invoices" (Some 1)) Sample.one_folder
    = (Return row, w')
    /\ folders (db w') = folders (db Sample.one_folder) ++ [f]
    /\ RawFolder.id row = folders.id f
    /\ RawFolder.name row = "Invoices"
    /\ RawFolder.parent_id row = Some 1
    /\ RawFolder.path row = "Accounting/Invoices"
    /\ folders.path f = "Accounting/Invoices".
Proof.
  destruct (createFolder_path 300 (Sample.new_folder "Invoices" (Some 1)) Sample.one_folder)
    as [_ Hchild].
  - split; vm_compute; [apply NoDup_singleton | repeat constructor; discriminate].
  - apply (Hchild Sample.accounting); [|reflexivity].
    vm_compute. apply list_elem_of_singleton. reflexivity.
Defined.

(** What [createFolder] leaves: the world as it was, or one more folder
    whose id is drawn from the sequence. *)
Lemma createFolder_world (now : Timestamp) (folder : InsertFolder.t) (w : World) :
  (createFolder now folder w).2 = w
  \/ exists parentId path,
       (createFolder now folder w).2
       = with_db w (insert_folder (inserted_folder now folder parentId path) (db w)).2.
Proof.
  destruct (InsertFolder.parentId folder) as [parentId|] eqn:Hp.
  - right. destruct (createFolder_run now folder parentId w Hp) as (path & Hrun & _).
    exists parentId, path. now rewrite Hrun.
  - left. now rewrite createFolder_without_parentId.
Qed.

(** The serial key of [folders] is kept by [createFolder] as long as the
    sequence is ahead of every key. *)
Lemma createFolder_keeps_key (now : Timestamp) (folder : InsertFolder.t) (w : World) :
  primary_key folders.id (folders (db w)) ->
  Forall (fun f => folders.id f < folders_id_seq (db w)) (folders (db w)) ->
  1 <= folders_id_seq (db w) ->
  let w' := (createFolder now folder w).2 in
  primary_key folders.id (folders (db w'))
  /\ Forall (fun f => folders.id f < folders_id_seq (db w')) (folders (db w'))
  /\ 1 <= folders_id_seq (db w').
Proof.
  intros [Hnodup Hpos] Hlt Hseq. cbv zeta.
  destruct (createFolder_world now folder w) as [Hw|(parentId & path & Hw)]; rewrite Hw.
  { repeat split; assumption. }
  cbn.
  rewrite Forall_forall in Hlt, Hpos.
  split; [split|split].
  - rewrite fmap_app. apply NoDup_app. split; [exact Hnodup|]. split.
    + intros k Hk Hk'. apply list_elem_of_singleton in Hk'. subst k.
      apply list_elem_of_fmap in Hk as (f & Hf & Hin). specialize (Hlt f Hin). cbn in Hf. lia.
    + apply NoDup_singleton.
  - apply Forall_app. split; [now apply Forall_forall|].
    repeat constructor. cbn. lia.
  - apply Forall_app. split.
    + apply Forall_forall. intros f Hf. specialize (Hlt f Hf). lia.
    + repeat constructor. cbn. lia.
  - lia.
Qed.

(** ** updateDocument *)

Lemma set_document_written_by (now : Timestamp) (document : UpdateDocument.t) (r : documents.row) :
  written_by now document r (set_document now document r).
Proof. repeat split. Qed.

Lemma head_filter_elem {R} (P : R -> Prop) `{forall r, Decision (P r)} (rows : list R) (r : R) :
  r ∈ rows -> P r ->
  exists r0, head (filter P rows) = Some r0 /\ r0 ∈ rows /\ P r0.
Proof.
  intros Hin HP.
  assert (Hf : r ∈ filter P rows) by (apply list_elem_of_filter; auto).
  destruct (filter P rows) as [|r0 rest] eqn:Heq; [inversion Hf|].
  exists r0. split; [reflexivity|].
  assert (H0 : r0 ∈ filter P rows) by (rewrite Heq; left).
  apply list_elem_of_filter in H0. tauto.
Qed.

(** C7: for an id that a document row has, [updateDocument] returns the
    rewritten row and leaves a table of the same length in which each
    row with another id is as it was and each row with that id has its
    columns as before, except the keys of the payload among name,
    folderId, tags, description, status and expirationDate, and
    [updatedAt], which is the current time; no other table changes. *)
Theorem updateDocument_in_place (now : Timestamp) (id : Z) (document : UpdateDocument.t)
    (w : World) :
  (exists d, d ∈ documents (db w) /\ documents.id d = id) ->
  exists old w',
    old ∈ documents (db w) /\ documents.id old = id
    /\ updateDocument now id document w
       = (Return (serialize (set_document now document old)), w')
    /\ written_by now document old (set_document now document old)
    /\ length (documents (db w')) = length (documents (db w))
    /\ (forall (i : nat) (r : documents.row),
          documents (db w) !! i = Some r ->
          exists r', documents (db w') !! i = Some r'
            /\ (documents.id r <> id -> r' = r)
            /\ (documents.id r = id -> written_by now document r r'))
    /\ same_but_documents w w'.
Proof.
  intros (d & Hin & Hid).
  destruct (head_filter_elem (fun r => documents.id r = id) _ d Hin Hid)
    as (old & Hhead & Hold & Hoid).
  exists old. eexists. split; [exact Hold|]. split; [exact Hoid|].
  split; [|split; [apply set_document_written_by|]].
  - unfold updateDocument, bind, statement, update_documents. cbn beta iota zeta.
    apply head_Some in Hhead as [rest Hrest]. rewrite where_key, Hrest. reflexivity.
  - cbn. split; [apply length_fmap|]. split; [|repeat split].
    intros i r Hi. rewrite list_lookup_fmap, Hi. cbn.
    eexists. split; [reflexivity|]. split.
    + intros Hne. case_bool_decide; [contradiction | reflexivity].
    + intros Heq. case_bool_decide; [apply set_document_written_by | contradiction].
Qed.

Lemma updateDocument_in_place_rename :
  exists old w',
    old ∈ documents (db Sample.one_document) /\ documents.id old = 1
    /\ updateDocument 300 1 Sample.rename Sample.one_document
       = (Return (serialize (set_document 300 Sample.rename old)), w')
    /\ written_by 300 Sample.rename old (set_document 300 Sample.rename old)
    /\ length (documents (db w')) = length (documents (db Sample.one_document))
    /\ (forall (i : nat) (r : documents.row),
          documents (db Sample.one_document) !! i = Some r ->
          exists r', documents (db w') !! i = Some r'
            /\ (documents.id r <> 1 -> r' = r)
            /\ (documents.id r = 1 -> written_by 300 Sample.rename r r'))
    /\ same_but_documents Sample.one_document w'.
Proof.
  apply (updateDocument_in_place 300 1 Sample.rename Sample.one_document).
  eexists. split; [vm_compute; left | reflexivity].
Defined.

(** X24: for an id that no row has, [updateDocument] touches no row
    and throws a TypeError when it reads the row that is not there. *)
Lemma updateDocument_absent (now : Timestamp) (id : Z) (document : UpdateDocument.t) (w : World) :
  (forall d, d ∈ documents (db w) -> documents.id d <> id) ->
  exists w',
    updateDocument now id document w
    = (Throw (TypeError "Cannot read properties of undefined (reading 'createdAt')"), w')
    /\ documents (db w') = documents (db w).
Proof.
  intros Habsent. eexists. split.
  - unfold updateDocument, bind, statement, update_documents. cbn beta iota zeta.
    rewrite where_key, filter_key_absent by exact Habsent. reflexivity.
  - cbn. rewrite <- (list_fmap_id (documents (db w))) at 2.
    apply list_fmap_ext. intros i r Hr.
    apply list_elem_of_lookup_2 in Hr. specialize (Habsent r Hr).
    cbn. case_bool_decide; [contradiction | reflexivity].
Qed.

(** ** The share route *)

(** C10: a request to the share route inserts no share row and changes
    no document, folder, user or permission row, nor the disk. When the
    request has a body it appends one entry to the activity log, with
    the token in the metadata of that entry; when it has none it fails
    with status 500 and the log is as it was. *)
Theorem share_document_only_logs (now : Timestamp) (shareToken : string) (id : Z)
    (req : Request.t) (w : World) :
  exists (res : Response) (w' : World),
    share_document now shareToken id req w = (Return res, w')
    /\ documentShares (db w') = documentShares (db w)
    /\ same_but_activityLog w w'
    /\ match Request.body req with
       | Some _ =>
           statusCode res = 200
           /\ exists entry : ActivityLog,
                activityLog (db w') = activityLog (db w) ++ [entry]
                /\ activityLog.userId entry = getCurrentUserId
                /\ activityLog.action entry = "share_document"
                /\ activityLog.resourceType entry = "document"
                /\ activityLog.resourceId entry = id
                /\ exists kv, activityLog.metadata entry = Some kv
                              /\ ("shareToken", JStr shareToken) ∈ kv
       | None =>
           statusCode res = 500
           /\ activityLog (db w') = activityLog (db w)
       end.
Proof.
  unfold share_document, try_catch.
  destruct (Request.body req) as [body|].
  - do 2 eexists. split; [reflexivity|]. cbn.
    split; [reflexivity|]. split; [repeat split|]. split; [reflexivity|].
    eexists. split; [reflexivity|]. repeat (split; [reflexivity|]).
    eexists. split; [reflexivity|]. left.
  - do 2 eexists. split; [reflexivity|]. cbn. repeat split.
Qed.

(** ** The delete route *)

Lemma getDocumentById_run (id : Z) (w : World) :
  getDocumentById id w
  = (Return (serialize_details <$>
               head (select_details <$>
                       filter (fun r => documents.id r.1.1 = id) (from_documents (db w)))),
     w).
Proof. unfold getDocumentById, bind, query, ret. now rewrite where_key. Qed.

Lemma delete_where (id : Z) (rows : list documents.row) :
  filter (fun r => negb (Sql.holds (Sql.eq (Some (documents.id r)) (Some id)))) rows
  = filter (fun r => documents.id r <> id) rows.
Proof.
  apply list_filter_iff. intros r. cbn. case_bool_decide; cbn; intuition.
Qed.

(** C8, as the code has it: when the lookup of the route finds the
    document (the row, with its creator and its folder) and its file is
    not on the disk, the route removes every row with that id, answers
    200 and logs the deletion; the failed unlink is written to the
    console only. *)
Theorem delete_document_missing_file (now : Timestamp) (id : Z) (w : World)
    (doc : WithDetails Document) :
  getDocumentById id w = (Return (Some doc), w) ->
  documents.filePath (document doc) ∉ disk w ->
  exists (entry : ActivityLog) (w' : World),
    delete_document now id w
    = (Return (json (Message "Document deleted successfully")), w')
    /\ documents (db w') = filter (fun r => documents.id r <> id) (documents (db w))
    /\ (forall r, r ∈ documents (db w') -> documents.id r <> id)
    /\ disk w' = disk w
    /\ console w' = console w ++ ["Error deleting file:"]
    /\ activityLog (db w') = activityLog (db w) ++ [entry]
    /\ activityLog.action entry = "delete_document"
    /\ activityLog.resourceId entry = id.
Proof.
  intros Hfound Hmissing.
  do 2 eexists. split.
  - unfold delete_document, try_catch. unfold bind at 1. rewrite Hfound.
    unfold bind at 1. unfold try_catch, unlinkSync.
    rewrite decide_False by exact Hmissing. reflexivity.
  - cbn -[filter Sql.holds Sql.eq]. rewrite delete_where.
    split; [reflexivity|]. split; [|repeat split].
    intros r Hr. now apply list_elem_of_filter in Hr as [Hne _].
Qed.

(** X25: when the lookup finds the document and its file is on the
    disk, the delete route removes the file and the rows with the id,
    answers 200 and writes nothing on the console. *)
Lemma delete_document_with_file (now : Timestamp) (id : Z) (w : World)
    (doc : WithDetails Document) :
  getDocumentById id w = (Return (Some doc), w) ->
  documents.filePath (document doc) ∈ disk w ->
  exists w',
    delete_document now id w
    = (Return (json (Message "Document deleted successfully")), w')
    /\ documents (db w') = filter (fun r => documents.id r <> id) (documents (db w))
    /\ disk w' = disk w ∖ {[documents.filePath (document doc)]}
    /\ console w' = console w.
Proof.
  intros Hfound Hfile.
  eexists. split.
  - unfold delete_document, try_catch. unfold bind at 1. rewrite Hfound.
    unfold bind at 1. unfold try_catch, unlinkSync.
    rewrite decide_True by exact Hfile. reflexivity.
  - cbn -[filter Sql.holds Sql.eq]. rewrite delete_where. repeat split.
Qed.

Lemma delete_document_missing_file_one :
  exists (entry : ActivityLog) (w' : World),
    delete_document 300 1 Sample.one_document
    = (Return (json (Message "Document deleted successfully")), w')
    /\ documents (db w')
       = filter (fun r => documents.id r <> 1) (documents (db Sample.one_document))
    /\ (forall r, r ∈ documents (db w') -> documents.id r <> 1)
    /\ disk w' = disk Sample.one_document
    /\ console w' = console Sample.one_document ++ ["Error deleting file:"]
    /\ activityLog (db w') = activityLog (db Sample.one_document) ++ [entry]
    /\ activityLog.action entry = "delete_document"
    /\ activityLog.resourceId entry = 1.
Proof.
  eapply (delete_document_missing_file 300 1 Sample.one_document).
  - vm_compute. reflexivity.
  - exact (not_elem_of_empty (C:=gset string) _).
Defined.

(** Not every document without file is removed: for a document whose
    folder does not exist, the row is there and its file is not on the
    disk, and the route answers 404 and leaves the row in the table. *)
Lemma delete_document_stray :
  (exists r, documents (db Sample.stray_document) = [r]
             /\ documents.id r = 1
             /\ documents.filePath r ∉ disk Sample.stray_document)
  /\ delete_document 300 1 Sample.stray_document
     = (Return (status_json 404 (Message "Document not found")), Sample.stray_document).
Proof.
  split.
  - eexists. split; [vm_compute; reflexivity|]. split; [reflexivity|].
    exact (not_elem_of_empty (C:=gset string) _).
  - vm_compute. reflexivity.
Qed.

(** ** The join of documents with their creators and folders *)

Lemma innerJoin_cons {A B} (a : A) (rows : list A) (table : list B)
    (on : A -> B -> option bool) :
  Sql.innerJoin (a :: rows) table on
  = (pair a <$> filter (fun b => Sql.holds (on a b)) table) ++ Sql.innerJoin rows table on.
Proof.
  unfold Sql.innerJoin. rewrite bind_cons. f_equal.
Qed.

Lemma innerJoin_app {A B} (rows1 rows2 : list A) (table : list B)
    (on : A -> B -> option bool) :
  Sql.innerJoin (rows1 ++ rows2) table on
  = Sql.innerJoin rows1 table on ++ Sql.innerJoin rows2 table on.
Proof. unfold Sql.innerJoin. apply bind_app. Qed.

(** The rows of a table that an equality on its key selects. *)
Lemma join_on_key {R} (key : R -> Z) (k : Z) (rows : list R) :
  filter (fun r => Sql.holds (Sql.eq (Some k) (Some (key r)))) rows
  = filter (fun r => key r = k) rows.
Proof. apply list_filter_iff. intros r. rewrite holds_eq. intuition. Qed.

(** Under a unique key the selection is empty or a single row. *)
Lemma filter_key_NoDup {R} (key : R -> Z) (k : Z) (rows : list R) :
  NoDup (key <$> rows) ->
  (filter (fun r => key r = k) rows = [] /\ ~ Exists (fun r => key r = k) rows)
  \/ (exists r, filter (fun r => key r = k) rows = [r] /\ r ∈ rows /\ key r = k
                /\ Exists (fun r => key r = k) rows).
Proof.
  intros Hnd.
  destruct (decide (Exists (fun r => key r = k) rows)) as [Hex|Hno].
  - right. pose proof Hex as Hex'. apply Exists_exists in Hex' as (r & Hin & Hk).
    exists r. subst k. split; [now apply filter_key_unique|]. auto.
  - left. split; [|exact Hno]. apply filter_key_absent.
    intros r Hin Hk. apply Hno. apply Exists_exists. eauto.
Qed.

Lemma join_details_cons (doc : documents.row) (docs : list documents.row)
    (us : list User) (fs : list Folder) :
  join_details (doc :: docs) us fs
  = (u ← filter (fun u => users.id u = documents.createdBy doc) us;
     f ← filter (fun f => folders.id f = documents.folderId doc) fs;
     [(doc, u, f)])
    ++ join_details docs us fs.
Proof.
  unfold join_details at 1. rewrite innerJoin_cons, innerJoin_app. f_equal.
  rewrite join_on_key.
  induction (filter (fun u => users.id u = documents.createdBy doc) us) as [|u l IH];
    [reflexivity|].
  rewrite fmap_cons, innerJoin_cons, bind_cons, IH. f_equal.
  cbn [fst]. rewrite join_on_key. reflexivity.
Qed.

Lemma join_details_elem (docs : list documents.row) (us : list User) (fs : list Folder)
    (r : documents.row * User * Folder) :
  r ∈ join_details docs us fs ->
  r.1.1 ∈ docs
  /\ r.1.2 ∈ us /\ users.id r.1.2 = documents.createdBy r.1.1
  /\ r.2 ∈ fs /\ folders.id r.2 = documents.folderId r.1.1.
Proof.
  induction docs as [|doc docs IH]; [inversion 1|].
  rewrite join_details_cons. intros Hin. apply elem_of_app in Hin as [Hin|Hin].
  - apply list_elem_of_bind in Hin as (u & Hin & Hu).
    apply list_elem_of_bind in Hin as (f & Hin & Hf).
    apply list_elem_of_singleton in Hin. subst r. cbn.
    apply list_elem_of_filter in Hu as [Hu Hu'].
    apply list_elem_of_filter in Hf as [Hf Hf'].
    split; [left|]. auto.
  - destruct (IH Hin) as (H1 & H2). split; [now right | exact H2].
Qed.

(** With unique keys each document is joined at most once: the
    documents of the join that pass a condition on the document are the
    documents that pass it and have a creator and a folder. *)
Lemma join_details_filter (docs : list documents.row) (us : list User) (fs : list Folder)
    (P : documents.row * User * Folder -> Prop) `{forall r, Decision (P r)}
    (Q : documents.row -> Prop) `{forall doc, Decision (Q doc)} :
  NoDup (users.id <$> us) ->
  NoDup (folders.id <$> fs) ->
  (forall r, P r <-> Q r.1.1) ->
  (fun r => r.1.1) <$> filter P (join_details docs us fs)
  = filter (fun doc => Q doc
                       /\ Exists (fun u => users.id u = documents.createdBy doc) us
                       /\ Exists (fun f => folders.id f = documents.folderId doc) fs)
      docs.
Proof.
  intros Hus Hfs HPQ. induction docs as [|doc docs IH]; [reflexivity|].
  rewrite join_details_cons, filter_app, fmap_app, IH, filter_cons. clear IH.
  destruct (filter_key_NoDup users.id (documents.createdBy doc) us Hus)
    as [[-> Hnu]|(u & -> & _ & _ & Hu)].
  { rewrite decide_False by tauto. reflexivity. }
  destruct (filter_key_NoDup folders.id (documents.folderId doc) fs Hfs)
    as [[-> Hnf]|(f & -> & _ & _ & Hf)].
  { rewrite decide_False by tauto. reflexivity. }
  cbn [mbind list_bind app]. rewrite (filter_cons P), filter_nil.
  destruct (decide (Q doc)) as [HQ|HQ].
  - rewrite decide_True by (apply HPQ; exact HQ).
    rewrite decide_True by tauto. reflexivity.
  - rewrite decide_False by (rewrite HPQ; exact HQ).
    rewrite decide_False by tauto. reflexivity.
Qed.

(** ** ORDER BY createdAt DESC *)

#[export] Instance desc_total {R} (column : R -> option Z) : Total (Sql.desc column).
Proof.
  intros r1 r2. unfold Sql.desc, Sql.desc_le.
  destruct (column r1) as [a|], (column r2) as [b|]; cbn; auto.
  destruct (Z.leb_spec b a), (Z.leb_spec a b); cbn; auto; lia.
Qed.

#[export] Instance desc_trans {R} (column : R -> option Z) : Transitive (Sql.desc column).
Proof.
  intros r1 r2 r3. unfold Sql.desc, Sql.desc_le.
  destruct (column r1) as [a|], (column r2) as [b|], (column r3) as [c|]; cbn;
    intros H1 H2; try exact I; try contradiction.
  apply Is_true_true, Z.leb_le in H1. apply Is_true_true, Z.leb_le in H2.
  apply Is_true_true, Z.leb_le. lia.
Qed.

(** What the three queries over the join have in common. *)
Lemma details_query (d : Database)
    (cond : documents.row * User * Folder -> option bool)
    (Q : documents.row -> Prop) `{forall doc, Decision (Q doc)} :
  NoDup (users.id <$> users d) ->
  NoDup (folders.id <$> folders d) ->
  (forall r, Sql.holds (cond r) <-> Q r.1.1) ->
  let L := select_details <$>
             Sql.orderBy by_createdAt_desc (Sql.where_ cond (from_documents d)) in
  document <$> L
    ≡ₚ filter (fun doc => Q doc /\ has_creator d doc /\ has_folder d doc) (documents d)
  /\ Sorted newest_first L
  /\ (forall r, r ∈ L -> joined d r).
Proof.
  intros Hus Hfs Hcond L. subst L. unfold Sql.orderBy.
  split; [|split].
  - rewrite <- list_fmap_compose.
    rewrite (list_fmap_ext (document ∘ select_details) (fun r => r.1.1))
      by (intros i [[doc u] f] _; reflexivity).
    rewrite merge_sort_Permutation. unfold Sql.where_, from_documents.
    rewrite (join_details_filter _ _ _ _ Q Hus Hfs Hcond). reflexivity.
  - apply (Sorted_fmap _ by_createdAt_desc).
    + intros [[doc1 u1] f1] [[doc2 u2] f2] Hle. exact Hle.
    + apply Sorted_merge_sort. apply _.
  - intros r Hr. apply list_elem_of_fmap in Hr as ([[doc u] f] & -> & Hr).
    rewrite merge_sort_Permutation in Hr.
    apply list_elem_of_filter in Hr as [_ Hr].
    apply join_details_elem in Hr. exact (proj2 Hr).
Qed.

(** ** getDocumentById *)

(** With unique keys, [getDocumentById] returns every row that has a
    creator and a folder, whatever its [isLatestVersion]. *)
Lemma getDocumentById_found (w : World) (d : documents.row) :
  NoDup (documents.id <$> documents (db w)) ->
  NoDup (users.id <$> users (db w)) ->
  NoDup (folders.id <$> folders (db w)) ->
  d ∈ documents (db w) ->
  has_creator (db w) d ->
  has_folder (db w) d ->
  exists r : WithDetails documents.row,
    getDocumentById (documents.id d) w = (Return (Some (serialize_details r)), w)
    /\ document r = d
    /\ joined (db w) r.
Proof.
  intros Hds Hus Hfs Hd Hu Hf.
  pose proof (join_details_filter (documents (db w)) (users (db w)) (folders (db w))
                (fun r => documents.id r.1.1 = documents.id d)
                (fun doc => documents.id doc = documents.id d)
                Hus Hfs (fun r => reflexivity _)) as Hjoin.
  rewrite (list_filter_iff _
             (fun doc => (Exists (fun u => users.id u = documents.createdBy doc) (users (db w))
                          /\ Exists (fun f => folders.id f = documents.folderId doc)
                               (folders (db w)))
                         /\ documents.id doc = documents.id d))
    in Hjoin by (intros doc; tauto).
  rewrite <- list_filter_filter, (filter_key_unique documents.id _ d Hds Hd) in Hjoin.
  rewrite filter_cons_True, filter_nil in Hjoin by (split; assumption).
  fold (from_documents (db w)) in Hjoin.
  destruct (filter _ (from_documents (db w))) as [|[[doc u] f] rest] eqn:Hrows;
    [discriminate|].
  destruct rest; [|discriminate]. injection Hjoin as Hdoc. cbn in Hdoc. subst doc.
  exists (select_details (d, u, f)). split; [|split; [reflexivity|]].
  - rewrite getDocumentById_run, Hrows. reflexivity.
  - assert (Hin : (d, u, f) ∈ from_documents (db w)).
    { eapply list_elem_of_filter. rewrite Hrows. left. }
    apply join_details_elem in Hin. exact (proj2 Hin).
Qed.

(** ** Conditions joined by AND and OR *)

Lemma holds_and3 (a b : option bool) :
  Sql.holds (Sql.and3 a b) <-> Sql.holds a /\ Sql.holds b.
Proof. destruct a as [[]|], b as [[]|]; cbn; tauto. Qed.

Lemma holds_or3 (a b : option bool) :
  Sql.holds (Sql.or3 a b) <-> Sql.holds a \/ Sql.holds b.
Proof. destruct a as [[]|], b as [[]|]; cbn; tauto. Qed.

Lemma holds_Some (b : bool) : Sql.holds (Some b) <-> b = true.
Proof. destruct b; cbn; intuition discriminate. Qed.

Lemma holds_and_ {R} (conditions : list (option (R -> option bool))) (r : R) :
  Sql.holds (Sql.and_ conditions r)
  <-> Forall (fun c => Sql.holds (c r)) (omap id conditions).
Proof.
  unfold Sql.and_. induction (omap id conditions) as [|c l IH]; cbn.
  - split; [constructor | exact (fun _ => I)].
  - rewrite holds_and3, Forall_cons, IH. reflexivity.
Qed.

Lemma omap_id_Some {A} (l : list A) : omap id (Some <$> l) = l.
Proof. induction l as [|a l IH]; [reflexivity|]. cbn. now rewrite IH. Qed.

(** ** getDocuments *)

Lemma getDocuments_where (folderId : option Z) (r : documents.row * User * Folder) :
  folderId <> Some 0 ->
  Sql.holds
    (Sql.and_ [
       Some (fun r => Sql.eq (Some (documents.isLatestVersion r.1.1)) (Some true));
       if truthy_num folderId
       then Some (fun r => Sql.eq (Some (documents.folderId r.1.1)) folderId)
       else None ] r)
  <-> documents.isLatestVersion r.1.1 = true /\ in_folder folderId r.1.1.
Proof.
  intros Hnz. rewrite holds_and_. destruct folderId as [f|].
  - rewrite truthy_num_Some by congruence. cbn -[Sql.holds Sql.eq].
    rewrite !Forall_cons, !holds_eq. intuition constructor.
  - cbn -[Sql.holds Sql.eq]. rewrite Forall_cons, holds_eq. intuition constructor.
Qed.




(** A [folderId] of 0 is read as no [folderId]. *)
Lemma getDocuments_folder_0 (w : World) : getDocuments (Some 0) w = getDocuments None w.
Proof. reflexivity. Qed.

(** ** LIKE and substrings *)

Lemma prefix_spec (q s : string) :
  String.prefix q s = true <-> exists post, s = q +:+ post.
Proof.
  revert s. induction q as [|c q IH]; intros s.
  - destruct s; cbn; split; eauto.
  - destruct s as [|c' s]; cbn.
    + split; [discriminate | intros [post H]; discriminate].
    + destruct (ascii_dec c c') as [->|Hne].
      * rewrite IH. split; intros [post H]; exists post.
        -- now rewrite H.
        -- now injection H.
      * split; [discriminate | intros [post H]; injection H as H1 H2; congruence].
Qed.

Lemma contains_unfold (q s : string) :
  contains q s
  = String.prefix q s
    || match s with EmptyString => false | String _ s' => contains q s' end.
Proof. destruct s; reflexivity. Qed.

(** [contains] is the substring relation. *)
Lemma contains_spec (q s : string) :
  contains q s = true <-> exists pre post, s = pre +:+ q +:+ post.
Proof.
  split.
  - induction s as [|c s IH]; rewrite contains_unfold, orb_true_iff.
    + intros [H|H]; [|discriminate].
      apply prefix_spec in H as [post ->]. now exists "", post.
    + intros [H|H].
      * apply prefix_spec in H as [post ->]. now exists "", post.
      * destruct (IH H) as (pre & post & ->). now exists (String c pre), post.
  - intros (pre & post & ->). induction pre as [|c pre IH].
    + rewrite contains_unfold, orb_true_iff. left. apply prefix_spec. now exists post.
    + change (String c pre +:+ q +:+ post) with (String c (pre +:+ q +:+ post)).
      rewrite contains_unfold, orb_true_iff. right. exact IH.
Qed.

Lemma like_tokens_plain (q rest : string) :
  like_plain q = true ->
  Sql.like_tokens false (q +:+ rest)
  = (Sql.Lit <$> String.list_ascii_of_string q) ++ Sql.like_tokens false rest.
Proof.
  induction q as [|c q IH]; intros Hplain; [reflexivity|].
  cbn [like_plain] in Hplain. rewrite !andb_true_iff, !negb_true_iff in Hplain.
  destruct Hplain as [[[Hp Hu] Hb] Hq].
  change (String c q +:+ rest) with (String c (q +:+ rest)).
  cbn [Sql.like_tokens String.list_ascii_of_string].
  rewrite Hp, Hu, Hb, IH by exact Hq. reflexivity.
Qed.

Lemma like_tokens_wrap (q : string) :
  like_plain q = true ->
  Sql.like_tokens false ("%" +:+ q +:+ "%")
  = Sql.AnySeq :: (Sql.Lit <$> String.list_ascii_of_string q) ++ [Sql.AnySeq].
Proof.
  intros Hplain. change ("%" +:+ q +:+ "%") with (String Sql.percent (q +:+ "%")).
  cbn [Sql.like_tokens]. change (Ascii.eqb Sql.percent Sql.backslash) with false.
  change (Ascii.eqb Sql.percent Sql.percent) with true. cbn match.
  now rewrite like_tokens_plain.
Qed.

Lemma like_match_AnySeq (p : list Sql.tok) (s : string) :
  Sql.like_match (Sql.AnySeq :: p) s
  = Sql.like_match p s
    || match s with
       | EmptyString => false
       | String _ s' => Sql.like_match (Sql.AnySeq :: p) s'
       end.
Proof. destruct s; reflexivity. Qed.

Lemma like_match_any (s : string) : Sql.like_match [Sql.AnySeq] s = true.
Proof.
  induction s as [|c s IH]; [reflexivity|]. rewrite like_match_AnySeq, IH. apply orb_true_r.
Qed.

Lemma like_match_prefix (q s : string) :
  Sql.like_match ((Sql.Lit <$> String.list_ascii_of_string q) ++ [Sql.AnySeq]) s
  = String.prefix q s.
Proof.
  revert s. induction q as [|c q IH]; intros s.
  - cbn [String.list_ascii_of_string fmap list_fmap app]. rewrite like_match_any.
    now destruct s.
  - destruct s as [|c' s]; [reflexivity|].
    cbn [String.list_ascii_of_string fmap list_fmap app Sql.like_match String.prefix].
    fold (Sql.Lit <$> String.list_ascii_of_string q). rewrite IH.
    destruct (ascii_dec c c') as [->|Hne].
    + now rewrite Ascii.eqb_refl.
    + apply Ascii.eqb_neq in Hne. now rewrite Hne.
Qed.

(** For a query without [%], [_] and backslash, matching [%query%] is
    containing the query. *)
Lemma like_plain_contains (q s : string) :
  like_plain q = true ->
  Sql.like_match (Sql.like_tokens false ("%" +:+ q +:+ "%")) s = contains q s.
Proof.
  intros Hplain. rewrite like_tokens_wrap by exact Hplain.
  induction s as [|c s IH]; rewrite like_match_AnySeq, contains_unfold, like_match_prefix.
  - reflexivity.
  - now rewrite IH.
Qed.

Lemma like_wf_percent (escaped : bool) (q : string) :
  Sql.like_wf escaped (q +:+ "%") = true.
Proof.
  revert escaped. induction q as [|c q IH]; intros escaped.
  - destruct escaped; reflexivity.
  - change (String c q +:+ "%") with (String c (q +:+ "%")).
    cbn [Sql.like_wf]. destruct escaped; apply IH.
Qed.

(** The pattern of a search never ends with a lone backslash. *)
Lemma like_wf_wrap (q : string) : Sql.like_wf false ("%" +:+ q +:+ "%") = true.
Proof. apply (like_wf_percent false (String Sql.percent q)). Qed.

Lemma text_like_contains (q : string) (doc : documents.row) :
  like_plain q = true -> text_like q doc = text_contains q doc.
Proof.
  intros Hplain. unfold text_like, text_contains.
  rewrite !like_plain_contains by exact Hplain.
  destruct (documents.description doc); [|reflexivity].
  now rewrite like_plain_contains.
Qed.

(** An underscore matches any character. *)
Example like_underscore : Sql.like (Some "a") "%_%" = Some true /\ contains "_" "a" = false.
Proof. split; reflexivity. Qed.

(** An underscore takes one character, of however many bytes. *)
Example like_underscore_character :
  Sql.like (Some "é") "%_%" = Some true
  /\ Sql.like (Some "é") "%__%" = Some false
  /\ Sql.like (Some "aéb") "%a_b%" = Some true
  /\ Sql.like (Some "aéb") "%a__b%" = Some false.
Proof. repeat split. Qed.

(** ** The document a caller gets *)

Lemma serialize_handed_over (row : documents.row) : handed_over row (serialize row).
Proof.
  unfold handed_over, serialize, iso_or_null, iso_or_empty, iso_text, Sql.to_Date. cbn.
  destruct (documents.expirationDate row), (documents.createdAt row),
    (documents.updatedAt row); repeat split.
Qed.

(** ** searchDocuments *)

Lemma truthy_str_Some (s : string) : s <> "" -> truthy_str (Some s) = true.
Proof.
  intros Hs. unfold truthy_str. apply negb_true_iff. now apply String.eqb_neq.
Qed.

Lemma text_like_holds (q : string) (r : documents.row * User * Folder) :
  Sql.holds
    (Sql.or_ [
       (fun r => Sql.like (Some (documents.name r.1.1)) ("%" +:+ q +:+ "%"));
       (fun r => Sql.like (Some (documents.originalName r.1.1)) ("%" +:+ q +:+ "%"));
       (fun r => Sql.like (documents.description r.1.1) ("%" +:+ q +:+ "%")) ] r)
  <-> text_like q r.1.1 = true.
Proof.
  unfold Sql.or_, text_like. cbn [foldr]. rewrite !holds_or3, !orb_true_iff.
  unfold Sql.like. rewrite !holds_Some.
  destruct (documents.description r.1.1) as [s|]; [rewrite holds_Some|];
    cbn; intuition discriminate.
Qed.

Lemma search_where (q : string) (filters : option Filters.t)
    (r : documents.row * User * Folder) :
  truthy_filters filters ->
  Sql.holds (Sql.and_ (Some <$> search_conditions q filters) r)
  <-> documents.isLatestVersion r.1.1 = true
      /\ text_like q r.1.1 = true
      /\ passes filters r.1.1.
Proof.
  intros (Hft & Hst & Hcb).
  rewrite holds_and_, omap_id_Some, <- (text_like_holds q r).
  unfold search_conditions, passes.
  destruct (filters ≫= Filters.fileType) as [ft|];
    [rewrite (truthy_str_Some ft) by congruence|];
  (destruct (filters ≫= Filters.status) as [st|];
    [rewrite (truthy_str_Some st) by congruence|]);
  (destruct (filters ≫= Filters.createdBy) as [cb|];
    [rewrite (truthy_num_Some cb) by congruence|]);
  destruct (filters ≫= Filters.dateFrom) as [df|];
  destruct (filters ≫= Filters.dateTo) as [dt|];
  cbn [truthy_str truthy_num truthy_obj app when_present fmap option_fmap option_map];
  rewrite ?Forall_cons, ?Forall_nil, ?holds_eq, ?holds_ge, ?holds_le;
  unfold created_from, created_to, Sql.of_Date; tauto.
Qed.

(** C4, as the code has it: on a store with unique user and folder
    ids, and for filters that hold no empty [fileType] or [status] and
    no [createdBy] of 0, [searchDocuments] returns, newest first,
    exactly the rows with [isLatestVersion = true] whose creator and
    folder exist, whose name, original name or description matches the
    LIKE pattern [%query%], and which pass each of [fileType],
    [status], [createdBy], [dateFrom] and [dateTo] that is present;
    each row comes back with its columns, its dates as text, and with
    its creator and its folder. For a query without [%], [_] and
    backslash, matching the pattern is containing the query. *)
Theorem searchDocuments_found (q : string) (filters : option Filters.t) (w : World) :
  NoDup (users.id <$> users (db w)) ->
  NoDup (folders.id <$> folders (db w)) ->
  truthy_filters filters ->
  exists (L : list (WithDetails documents.row)) (result : list (WithDetails Document)),
    searchDocuments q filters w = (Return result, w)
    /\ Forall2 handed_over_details L result
    /\ document <$> L ≡ₚ filter (found (db w) q filters) (documents (db w))
    /\ Sorted newest_first L
    /\ (forall r, r ∈ L -> joined (db w) r)
    /\ (like_plain q = true -> forall doc, text_like q doc = text_contains q doc).
Proof.
  intros Hus Hfs Htruthy.
  do 2 eexists. split; [reflexivity|].
  split.
  { apply Forall2_fmap_r, Forall_Forall2_diag, Forall_forall. intros r _.
    split; [apply serialize_handed_over | split; reflexivity]. }
  destruct (details_query (db w) _
              (fun doc => documents.isLatestVersion doc = true
                          /\ text_like q doc = true /\ passes filters doc)
              Hus Hfs (fun r => search_where q filters r Htruthy))
    as (Hperm & Hsorted & Hjoined).
  split; [|split; [exact Hsorted | split; [exact Hjoined|]]].
  - rewrite Hperm. erewrite list_filter_iff; [reflexivity|].
    intros doc. unfold found. tauto.
  - intros Hplain doc. now apply text_like_contains.
Qed.

Lemma searchDocuments_found_a :
  exists (L : list (WithDetails documents.row)) (result : list (WithDetails Document)),
    searchDocuments "a" None Sample.one_document = (Return result, Sample.one_document)
    /\ Forall2 handed_over_details L result
    /\ document <$> L
         ≡ₚ filter (found (db Sample.one_document) "a" None)
              (documents (db Sample.one_document))
    /\ Sorted newest_first L
    /\ (forall r, r ∈ L -> joined (db Sample.one_document) r)
    /\ (like_plain "a" = true -> forall doc, text_like "a" doc = text_contains "a" doc).
Proof.
  apply (searchDocuments_found "a" None Sample.one_document).
  - vm_compute. apply NoDup_singleton.
  - vm_compute. apply NoDup_singleton.
  - repeat split; discriminate.
Defined.

(** Not every row that is found contains the query: on the query "_"
    the document named "a", without description, is returned, and "a"
    does not contain "_". *)
Lemma searchDocuments_underscore :
  exists r,
    searchDocuments "_" None Sample.one_document = (Return [r], Sample.one_document)
    /\ documents.name (document r) = "a"
    /\ documents.originalName (document r) = "a"
    /\ documents.description (document r) = None
    /\ contains "_" "a" = false.
Proof.
  eexists. split; [vm_compute; reflexivity|]. repeat split.
Qed.

(** A search leaves out a document whose folder does not exist. *)
Lemma searchDocuments_stray :
  (exists r, documents (db Sample.stray_document) = [r]
             /\ documents.isLatestVersion r = true
             /\ contains "a" (documents.name r) = true)
  /\ searchDocuments "a" None Sample.stray_document = (Return [], Sample.stray_document).
Proof.
  split.
  - eexists. split; [vm_compute; reflexivity|]. split; reflexivity.
  - vm_compute. reflexivity.
Qed.

(** The bounds are compared in the store, to the microsecond: a
    document passes [dateTo] set to its own [createdAt], as a [Date]
    shows it, only when it was created on a whole millisecond. *)
Lemma created_to_own_date (doc : documents.row) (c : Timestamp) :
  documents.createdAt doc = Some c ->
  created_to (Sql.to_Date c) doc <-> c mod 1000 = 0.
Proof.
  intros Hc. unfold created_to, Sql.to_Date. rewrite Hc.
  pose proof (Z.div_mod c 1000). pose proof (Z.mod_pos_bound c 1000). lia.
Qed.

Example searchDocuments_dateTo :
  searchDocuments "a" (Some (Sample2.until 1700000000000)) Sample2.late_document
  = (Return [], Sample2.late_document)
  /\ exists r,
       searchDocuments "a" (Some (Sample2.until 1700000000001)) Sample2.late_document
       = (Return [r], Sample2.late_document)
       /\ documents.createdAt (document r) = "2023-11-14T22:13:20.000Z".
Proof.
  split; [vm_compute; reflexivity|].
  eexists. split; [vm_compute; reflexivity | reflexivity].
Qed.

(** An empty [fileType] or [status] and a [createdBy] of 0 are read as
    no filter. *)
Lemma search_conditions_falsy (q : string) (dateFrom dateTo : option Date)
    (t : option (list string)) :
  search_conditions q
    (Some {| Filters.fileType := Some ""; Filters.status := Some "";
             Filters.createdBy := Some 0; Filters.tags := t;
             Filters.dateFrom := dateFrom; Filters.dateTo := dateTo |})
  = search_conditions q
      (Some {| Filters.fileType := None; Filters.status := None;
               Filters.createdBy := None; Filters.tags := t;
               Filters.dateFrom := dateFrom; Filters.dateTo := dateTo |}).
Proof. reflexivity. Qed.

(** ** getDocumentById and older versions *)

(** C9: there is a store with a row whose [isLatestVersion] is false
    that [getDocumentById] returns under its id: the document that
    comes back has the id and the columns of the row, [isLatestVersion]
    false among them, with the creator and the folder of the row. Every
    listing and every search of that store leaves the row out. *)
Theorem getDocumentById_returns_old_version :
  exists (w : World) (d : documents.row) (found : WithDetails Document),
    d ∈ documents (db w)
    /\ documents.isLatestVersion d = false
    /\ getDocumentById (documents.id d) w = (Return (Some found), w)
    /\ documents.id (document found) = documents.id d
    /\ documents.isLatestVersion (document found) = false
    /\ handed_over d (document found)
    /\ users.id (createdByUser found) = documents.createdBy d
    /\ createdByUser found ∈ users (db w)
    /\ folders.id (folder found) = documents.folderId d
    /\ folder found ∈ folders (db w)
    /\ (forall folderId, getDocuments folderId w = (Return [], w))
    /\ (forall q filters, searchDocuments q filters w = (Return [], w)).
Proof.
  exists Sample.with_old_version, Sample.old_version.
  eexists. split; [vm_compute; left|]. split; [reflexivity|].
  split; [vm_compute; reflexivity|].
  split; [reflexivity|]. split; [reflexivity|].
  split; [repeat split|]. split; [reflexivity|].
  split; [vm_compute; left|]. split; [reflexivity|]. split; [vm_compute; left|].
  assert (Hfrom : from_documents (db Sample.with_old_version)
                  = [(Sample.old_version, Sample.admin, Sample.accounting)])
    by (vm_compute; reflexivity).
  split.
  - intros folderId. unfold getDocuments, bind, query, ret. rewrite Hfrom.
    unfold Sql.where_. rewrite filter_cons_False, filter_nil; [reflexivity|].
    unfold Sql.and_. now destruct (truthy_num folderId).
  - intros q filters. unfold searchDocuments, bind, query, ret. rewrite Hfrom.
    unfold Sql.where_. rewrite filter_cons_False, filter_nil; [reflexivity|].
    unfold Sql.and_. rewrite omap_id_Some. unfold search_conditions.
    cbn [app foldr]. cbn. intros [].
Qed.

(** ** The keys are kept *)

Lemma keys_ok_same_folders (w w' : World) : same_folders w w' -> keys_ok w -> keys_ok w'.
Proof. intros (Hu & Hf & Hs). unfold keys_ok. now rewrite Hu, Hf, Hs. Qed.

Lemma delete_document_same_folders (now : Timestamp) (id : Z) (w : World) :
  same_folders w (delete_document now id w).2.
Proof.
  unfold delete_document, try_catch. unfold bind at 1. rewrite getDocumentById_run.
  destruct (head _) as [r|]; [|repeat split].
  cbn [fmap option_fmap option_map]. unfold bind at 1. unfold try_catch, unlinkSync.
  destruct (decide _); repeat split.
Qed.

Lemma share_document_same_folders (now : Timestamp) (shareToken : string) (id : Z)
    (req : Request.t) (w : World) :
  same_folders w (share_document now shareToken id req w).2.
Proof.
  unfold share_document, try_catch. destruct (Request.body req); repeat split.
Qed.

Lemma updateDocument_same_folders (now : Timestamp) (id : Z) (document : UpdateDocument.t)
    (w : World) :
  same_folders w (updateDocument now id document w).2.
Proof.
  unfold updateDocument, bind, statement, update_documents. cbn beta iota zeta.
  destruct (head _); repeat split.
Qed.

(** Every call keeps the keys: the worlds reached from a world whose
    keys are in order have their keys in order. *)
Theorem keys_ok_exec (c : Call) (w : World) : keys_ok w -> keys_ok (exec c w).
Proof.
  intros Hok. destruct c as [now folder| | | | | |]; cbn [exec].
  - destruct Hok as (Hu & Hf & Hlt & Hseq).
    destruct (createFolder_keeps_key now folder w Hf Hlt Hseq) as (Hf' & Hlt' & Hseq').
    assert (Husers : users (db (createFolder now folder w).2) = users (db w)).
    { destruct (createFolder_world now folder w) as [Hw|(parentId & path & Hw)];
        now rewrite Hw. }
    unfold keys_ok. rewrite Husers. auto.
  - revert Hok. apply keys_ok_same_folders. repeat split.
  - revert Hok. apply keys_ok_same_folders, updateDocument_same_folders.
  - revert Hok. apply keys_ok_same_folders. repeat split.
  - revert Hok. apply keys_ok_same_folders. repeat split.
  - revert Hok. apply keys_ok_same_folders, delete_document_same_folders.
  - revert Hok. apply keys_ok_same_folders, share_document_same_folders.
Qed.

Lemma keys_ok_empty : keys_ok Sample.empty.
Proof.
  unfold keys_ok. cbn. repeat split;
    first [apply NoDup_singleton | apply NoDup_nil_2 | lia | repeat constructor; cbn; lia].
Qed.

(** X23: every sequence of calls of [Call] (createFolder,
    createDocument, updateDocument, deleteDocument, logActivity, the
    delete route and the share route) started in a world whose user ids
    and folder ids are serial primary keys ends in such a world. *)
Lemma keys_ok_calls (calls : list Call) (w : World) :
  keys_ok w -> keys_ok (foldl (fun w c => exec c w) w calls).
Proof.
  revert w. induction calls as [|c calls IH]; intros w Hok; [exact Hok|].
  cbn [foldl]. apply IH. now apply keys_ok_exec.
Qed.

(** * More properties *)

(** ** Folders by parent and by path *)

#[export] Instance asc_text_total {R} (column : R -> string) : Total (asc_text column).
Proof.
  intros r1 r2. unfold asc_text.
  destruct (String.leb_total (column r1) (column r2)) as [H|H]; rewrite H; cbn; auto.
Qed.

Lemma holds_is_null {A} (x : option A) : Sql.holds (is_null x) <-> x = None.
Proof. destruct x; cbn; intuition discriminate. Qed.

Lemma holds_eq_nullable {A} `{EqDecision A} (x : option A) (y : A) :
  Sql.holds (Sql.eq x (Some y)) <-> x = Some y.
Proof.
  destruct x as [a|]; [|cbn; intuition discriminate].
  rewrite holds_eq. split; congruence.
Qed.

Lemma getFoldersByParent_children_aux (parentId : option Z) (w : World) :
  exists L : list Folder,
    getFoldersByParent parentId w = (Return L, w)
    /\ L ≡ₚ filter (fun f => folders.parentId f = parentId) (folders (db w)).
Proof.
  eexists. split; [reflexivity|]. unfold Sql.orderBy.
  rewrite merge_sort_Permutation. unfold Sql.where_.
  erewrite list_filter_iff; [reflexivity|]. intros f.
  destruct parentId as [p|]; [apply holds_eq_nullable | apply holds_is_null].
Qed.

(** X1: [getFoldersByParent] returns, ordered by name, exactly the
    folders whose [parentId] is the argument; [null] selects the folders
    without parent, and the world is as it was. *)
Theorem getFoldersByParent_children (parentId : option Z) (w : World) :
  exists L : list Folder,
    getFoldersByParent parentId w = (Return L, w)
    /\ L ≡ₚ filter (fun f => folders.parentId f = parentId) (folders (db w))
    /\ Sorted (asc_text folders.name) L.
Proof.
  eexists. split; [reflexivity|]. unfold Sql.orderBy. split.
  - rewrite merge_sort_Permutation. unfold Sql.where_.
    erewrite list_filter_iff; [reflexivity|]. intros f.
    destruct parentId as [p|]; [apply holds_eq_nullable | apply holds_is_null].
  - apply Sorted_merge_sort. apply _.
Qed.

(** X2: [getFolders] returns every folder once, ordered by path, and
    changes nothing but the console, where it logs one line. *)
Theorem getFolders_all (w : World) :
  exists L : list Folder,
    getFolders w
    = (Return L, {| db := db w; disk := disk w;
                    console := console w ++ ["Fetched folders:"] |})
    /\ L ≡ₚ folders (db w)
    /\ Sorted (asc_text folders.path) L.
Proof.
  eexists. split; [reflexivity|]. unfold Sql.orderBy. split.
  - apply merge_sort_Permutation.
  - apply Sorted_merge_sort. apply _.
Qed.

(** ** createFolder and the lookups *)

(** X3: when the folder sequence is ahead of every folder id and
    [parentId] is not left out, the raw row that [createFolder] returns
    shows the folder row it has inserted, and that row is the one that
    [getFolderById] finds under the returned id afterwards; the lookup
    of every other id answers as before. *)
Theorem createFolder_then_getFolderById (now : Timestamp) (folder : InsertFolder.t)
    (parentId : option Z) (w : World) :
  folders_fresh w ->
  InsertFolder.parentId folder = Some parentId ->
  exists (row : RawFolder.t) (f : Folder) (w' : World),
    createFolder now folder w = (Return row, w')
    /\ folders (db w') = folders (db w) ++ [f]
    /\ shows row f
    /\ folders.name f = InsertFolder.name folder
    /\ folders.parentId f = parentId
    /\ getFolderById (RawFolder.id row) w' = (Return (Some f), w')
    /\ (forall k, k <> RawFolder.id row ->
        (getFolderById k w').1 = (getFolderById k w).1).
Proof.
  intros Hfresh Hp.
  destruct (createFolder_run now folder parentId w Hp) as (path & Hrun & _).
  do 3 eexists. split; [exact Hrun|].
  unfold folders_fresh in Hfresh. rewrite Forall_forall in Hfresh.
  split; [reflexivity|]. split; [repeat split|]. split; [reflexivity|].
  split; [reflexivity|]. split.
  - rewrite getFolderById_run. cbn. rewrite filter_app, filter_key_absent.
    + rewrite filter_cons_True by reflexivity. reflexivity.
    + intros f Hf. specialize (Hfresh f Hf). lia.
  - intros k Hk. rewrite !getFolderById_run. cbn. cbn in Hk.
    rewrite filter_app, filter_cons_False, filter_nil, app_nil_r; [reflexivity|].
    cbn. congruence.
Qed.

Lemma createFolder_then_getFolderById_accounting :
  exists (row : RawFolder.t) (f : Folder) (w' : World),
    createFolder 300 (Sample.new_folder "Invoices" (Some 1)) Sample.one_folder
    = (Return row, w')
    /\ folders (db w') = folders (db Sample.one_folder) ++ [f]
    /\ shows row f
    /\ folders.name f = "Invoices"
    /\ folders.parentId f = Some 1
    /\ getFolderById (RawFolder.id row) w' = (Return (Some f), w')
    /\ (forall k, k <> RawFolder.id row ->
        (getFolderById k w').1 = (getFolderById k Sample.one_folder).1).
Proof.
  apply (createFolder_then_getFolderById 300 (Sample.new_folder "Invoices" (Some 1))
           (Some 1) Sample.one_folder).
  - unfold folders_fresh. vm_compute. repeat constructor.
  - reflexivity.
Defined.

(** X4: when [parentId] is not left out, the folder row that
    [createFolder] inserts, which the returned raw row shows, is among
    the folders that [getFoldersByParent] returns afterwards for that
    [parentId], whether or not a folder with that id exists. *)
Theorem createFolder_then_getFoldersByParent (now : Timestamp) (folder : InsertFolder.t)
    (parentId : option Z) (w : World) :
  InsertFolder.parentId folder = Some parentId ->
  exists (row : RawFolder.t) (f : Folder) (w' : World) (L : list Folder),
    createFolder now folder w = (Return row, w')
    /\ folders (db w') = folders (db w) ++ [f]
    /\ shows row f
    /\ getFoldersByParent parentId w' = (Return L, w')
    /\ f ∈ L.
Proof.
  intros Hp.
  destruct (createFolder_run now folder parentId w Hp) as (path & Hrun & _).
  destruct (getFoldersByParent_children_aux parentId (createFolder now folder w).2)
    as (L & HL & Hperm).
  rewrite Hrun in HL, Hperm. do 4 eexists.
  split; [exact Hrun|]. split; [reflexivity|]. split; [repeat split|].
  split; [exact HL|].
  rewrite Hperm. apply list_elem_of_filter. split; [reflexivity|].
  cbn. apply elem_of_app. right. left.
Qed.

Lemma createFolder_then_getFoldersByParent_99 :
  exists (row : RawFolder.t) (f : Folder) (w' : World) (L : list Folder),
    createFolder 300 (Sample.new_folder "Invoices" (Some 99)) Sample.one_folder
    = (Return row, w')
    /\ folders (db w') = folders (db Sample.one_folder) ++ [f]
    /\ shows row f
    /\ getFoldersByParent (Some 99) w' = (Return L, w')
    /\ f ∈ L.
Proof.
  apply (createFolder_then_getFoldersByParent 300 (Sample.new_folder "Invoices" (Some 99))
           (Some 99) Sample.one_folder).
  reflexivity.
Defined.

(** ** updateFolder and deleteFolder *)

Lemma updateFolder_run (now : Timestamp) (id : Z) (folder : PartialFolder.t) (w : World) :
  updateFolder now id folder w
  = (Return (set_folder now folder
               <$> head (filter (fun r => folders.id r = id) (folders (db w)))),
     with_db w (with_folders (db w)
       ((fun r => if decide (folders.id r = id) then set_folder now folder r else r)
          <$> folders (db w)))).
Proof.
  unfold updateFolder, bind, statement, update_folders, ret. cbn beta iota zeta.
  rewrite where_key. f_equal.
  - f_equal. now destruct (filter _ (folders (db w))).
  - do 2 f_equal. apply list_fmap_ext. intros i r _. cbn.
    case_bool_decide; [rewrite decide_True | rewrite decide_False]; auto.
Qed.

(** X5: an update of a folder without [path] key leaves the path of
    every folder as it is, also when it changes the name or the parent
    of the folder: the rows with the id take the keys of the payload and
    the current time, to the millisecond, as [updatedAt], the other rows
    and the documents are as they were. *)
Theorem updateFolder_keeps_paths (now : Timestamp) (id : Z) (folder : PartialFolder.t)
    (w : World) :
  PartialFolder.path folder = None ->
  exists res w',
    updateFolder now id folder w = (Return res, w')
    /\ folders.path <$> folders (db w') = folders.path <$> folders (db w)
    /\ (forall (i : nat) (r : Folder),
          folders (db w) !! i = Some r ->
          exists r', folders (db w') !! i = Some r'
            /\ (folders.id r <> id -> r' = r)
            /\ (folders.id r = id ->
                folders.name r' = default (folders.name r) (PartialFolder.name folder)
                /\ folders.parentId r'
                   = default (folders.parentId r) (PartialFolder.parentId folder)
                /\ folders.path r' = folders.path r
                /\ folders.updatedAt r' = Some (now / 1000 * 1000)))
    /\ documents (db w') = documents (db w).
Proof.
  intros Hpath. do 2 eexists. split; [apply updateFolder_run|]. cbn.
  split; [|split; [|reflexivity]].
  - rewrite <- list_fmap_compose. apply list_fmap_ext. intros i r _. cbn.
    case_decide; [|reflexivity]. cbn. now rewrite Hpath.
  - intros i r Hi. rewrite list_lookup_fmap, Hi. cbn.
    eexists. split; [reflexivity|]. split.
    + intros Hne. now rewrite decide_False.
    + intros Heq. rewrite decide_True by exact Heq. cbn. rewrite Hpath. auto.
Qed.

Lemma updateFolder_keeps_paths_rename :
  exists res w',
    updateFolder 3500 1 Sample2.rename_folder Sample.one_folder = (Return res, w')
    /\ folders.path <$> folders (db w') = folders.path <$> folders (db Sample.one_folder)
    /\ (forall (i : nat) (r : Folder),
          folders (db Sample.one_folder) !! i = Some r ->
          exists r', folders (db w') !! i = Some r'
            /\ (folders.id r <> 1 -> r' = r)
            /\ (folders.id r = 1 ->
                folders.name r'
                = default (folders.name r) (PartialFolder.name Sample2.rename_folder)
                /\ folders.parentId r'
                   = default (folders.parentId r)
                       (PartialFolder.parentId Sample2.rename_folder)
                /\ folders.path r' = folders.path r
                /\ folders.updatedAt r' = Some 3000))
    /\ documents (db w') = documents (db Sample.one_folder).
Proof.
  apply (updateFolder_keeps_paths 3500 1 Sample2.rename_folder Sample.one_folder).
  reflexivity.
Defined.

(** After a rename the path no longer ends with the name. *)
Example updateFolder_rename_stale :
  folders (db (updateFolder 3500 1 Sample2.rename_folder Sample.one_folder).2)
  = [ {| folders.id := 1; folders.name := "Finance"; folders.parentId := None;
         folders.path := "Accounting"; folders.type := "standard";
         folders.permissions := Some []; folders.createdBy := 1;
         folders.createdAt := Some 100; folders.updatedAt := Some 3000 |} ].
Proof. reflexivity. Qed.

(** X6: for an id that no folder has, [updateFolder] does not throw:
    it returns [undefined] and every table is as it was. *)
Theorem updateFolder_absent (now : Timestamp) (id : Z) (folder : PartialFolder.t) (w : World) :
  (forall f, f ∈ folders (db w) -> folders.id f <> id) ->
  exists w',
    updateFolder now id folder w = (Return None, w')
    /\ folders (db w') = folders (db w)
    /\ documents (db w') = documents (db w)
    /\ users (db w') = users (db w)
    /\ activityLog (db w') = activityLog (db w).
Proof.
  intros Habsent. eexists. split.
  - rewrite updateFolder_run, filter_key_absent by exact Habsent. reflexivity.
  - cbn. split; [|auto]. rewrite <- (list_fmap_id (folders (db w))) at 2.
    apply list_fmap_ext. intros i r Hr.
    apply list_elem_of_lookup_2 in Hr. specialize (Habsent r Hr).
    now rewrite decide_False.
Qed.

Lemma updateFolder_absent_99 :
  exists w',
    updateFolder 300 99 Sample2.rename_folder Sample.one_folder = (Return None, w')
    /\ folders (db w') = folders (db Sample.one_folder)
    /\ documents (db w') = documents (db Sample.one_folder)
    /\ users (db w') = users (db Sample.one_folder)
    /\ activityLog (db w') = activityLog (db Sample.one_folder).
Proof.
  apply (updateFolder_absent 300 99 Sample2.rename_folder Sample.one_folder).
  intros f Hf. vm_compute in Hf. apply list_elem_of_singleton in Hf. subst f.
  vm_compute. discriminate.
Defined.

Lemma delete_folders_where (id : Z) (rows : list Folder) :
  filter (fun r => negb (Sql.holds (Sql.eq (Some (folders.id r)) (Some id)))) rows
  = filter (fun r => folders.id r <> id) rows.
Proof.
  apply list_filter_iff. intros r. cbn. case_bool_decide; cbn; intuition.
Qed.

(** No row of the join has the folder of a deleted id. *)
Lemma from_documents_folder (d : Database) (r : documents.row * User * Folder) :
  r ∈ from_documents d ->
  exists f, f ∈ folders d /\ folders.id f = documents.folderId r.1.1.
Proof.
  intros Hr. apply join_details_elem in Hr as (_ & _ & _ & Hf & Hid). eauto.
Qed.

(** X7: [deleteFolder] removes the rows with the id and nothing else:
    the folders below it and the documents in it stay in their tables.
    Those documents are then out of reach: [getDocumentById] answers
    [undefined] for them and [getDocuments] returns none of them. *)
Theorem deleteFolder_orphans (id : Z) (w : World) :
  exists w',
    deleteFolder id w = (Return tt, w')
    /\ folders (db w') = filter (fun f => folders.id f <> id) (folders (db w))
    /\ documents (db w') = documents (db w)
    /\ (forall f, f ∈ folders (db w) -> folders.parentId f = Some id ->
        folders.id f <> id -> f ∈ folders (db w'))
    /\ (forall k,
          (forall d, d ∈ documents (db w) -> documents.id d = k ->
                     documents.folderId d = id) ->
          getDocumentById k w' = (Return None, w'))
    /\ exists L, getDocuments None w' = (Return L, w')
                 /\ forall r, r ∈ L -> documents.folderId (document r) <> id.
Proof.
  exists (deleteFolder id w).2. split; [reflexivity|].
  set (w' := (deleteFolder id w).2).
  assert (Hfolders : folders (db w') = filter (fun f => folders.id f <> id) (folders (db w)))
    by apply delete_folders_where.
  assert (Hgone : forall r, r ∈ from_documents (db w') -> documents.folderId r.1.1 <> id).
  { intros r Hr. apply from_documents_folder in Hr as (f & Hf & Hid).
    rewrite Hfolders in Hf. apply list_elem_of_filter in Hf as [Hne _]. congruence. }
  split; [exact Hfolders|]. split; [reflexivity|]. split; [|split].
  - intros f Hf _ Hne. rewrite Hfolders. now apply list_elem_of_filter.
  - intros k Hk. rewrite getDocumentById_run.
    destruct (filter _ (from_documents (db w'))) as [|r rest] eqn:Hrows; [reflexivity|].
    exfalso. assert (Hr : r ∈ filter (fun r => documents.id r.1.1 = k) (from_documents (db w')))
      by (rewrite Hrows; left).
    apply list_elem_of_filter in Hr as [Hid Hr].
    apply (Hgone r Hr). apply Hk; [|exact Hid].
    now apply join_details_elem in Hr as (Hd & _).
  - eexists. split; [reflexivity|]. intros r Hr.
    apply list_elem_of_fmap in Hr as (r1 & -> & Hr).
    apply list_elem_of_fmap in Hr as ([[doc u] f] & -> & Hr).
    unfold Sql.orderBy in Hr. rewrite merge_sort_Permutation in Hr.
    apply list_elem_of_filter in Hr as [_ Hr]. exact (Hgone _ Hr).
Qed.

(** ** The order of paths *)

Lemma ascii_compare_refl (a : Ascii.ascii) : Ascii.compare a a = Eq.
Proof. unfold Ascii.compare. apply N.compare_refl. Qed.

Lemma ascii_compare_lt_trans (a b c : Ascii.ascii) :
  Ascii.compare a b = Lt -> Ascii.compare b c = Lt -> Ascii.compare a c = Lt.
Proof.
  unfold Ascii.compare. rewrite !N.compare_lt_iff. apply N.lt_trans.
Qed.

Lemma string_compare_trans (s1 s2 s3 : string) :
  String.compare s1 s2 <> Gt -> String.compare s2 s3 <> Gt -> String.compare s1 s3 <> Gt.
Proof.
  revert s2 s3. induction s1 as [|a1 s1 IH]; intros [|a2 s2] [|a3 s3]; cbn;
    try congruence.
  destruct (Ascii.compare a1 a2) eqn:H12; cbn; [| |congruence].
  - apply Ascii.compare_eq_iff in H12. subst a2.
    destruct (Ascii.compare a1 a3); cbn; [apply IH | congruence | congruence].
  - destruct (Ascii.compare a2 a3) eqn:H23; cbn; [| |congruence].
    + apply Ascii.compare_eq_iff in H23. subst a3. rewrite H12. cbn. congruence.
    + rewrite (ascii_compare_lt_trans _ _ _ H12 H23). cbn. congruence.
Qed.

Lemma leb_compare (s1 s2 : string) : String.leb s1 s2 <-> String.compare s1 s2 <> Gt.
Proof. unfold String.leb. destruct (String.compare s1 s2); cbn; intuition congruence. Qed.

#[export] Instance asc_text_trans {R} (column : R -> string) : Transitive (asc_text column).
Proof.
  intros r1 r2 r3. unfold asc_text. rewrite !leb_compare. apply string_compare_trans.
Qed.

(** A string is not after the strings that it starts. *)
Lemma leb_prefix (p s : string) : String.leb p (p +:+ s).
Proof.
  apply leb_compare. induction p as [|c p IH].
  - change ("" +:+ s) with s. destruct s; cbn; congruence.
  - change (String c p +:+ s) with (String c (p +:+ s)). cbn.
    now rewrite ascii_compare_refl.
Qed.

Lemma append_same (s t : string) : s +:+ t = s -> t = "".
Proof.
  induction s as [|c s IH]; [auto|].
  change (String c s +:+ t) with (String c (s +:+ t)). intros H. injection H. exact IH.
Qed.

Lemma StronglySorted_lookup {A} (R : relation A) (l : list A) (i j : nat) (x y : A) :
  StronglySorted R l -> l !! i = Some x -> l !! j = Some y -> (i < j)%nat -> R x y.
Proof.
  intros Hs. revert i j. induction Hs as [|a l Hs IH Hall]; intros i j Hi Hj Hlt.
  - inversion Hi.
  - destruct j as [|j]; [lia|]. destruct i as [|i].
    + injection Hi as ->. rewrite Forall_forall in Hall. apply Hall.
      cbn in Hj. now apply list_elem_of_lookup_2 in Hj.
    + apply (IH i j); [exact Hi | exact Hj | lia].
Qed.

(** X8: in the list that [getFolders] returns, a folder whose path is
    the path of another folder, "/" and its own name comes after that
    folder: parents are listed before the folders below them. *)
Theorem getFolders_parent_first (w : World) :
  exists L : list Folder,
    (getFolders w).1 = Return L
    /\ forall (i j : nat) (P F : Folder),
         L !! i = Some P -> L !! j = Some F ->
         folders.path F = folders.path P +:+ "/" +:+ folders.name F ->
         (i < j)%nat.
Proof.
  eexists. split; [reflexivity|]. intros i j P F Hi Hj Hpath.
  assert (Hsorted : StronglySorted (asc_text folders.path)
                      (Sql.orderBy (asc_text folders.path) (folders (db w))))
    by (apply StronglySorted_merge_sort; apply _).
  assert (Hne : folders.path F <> folders.path P).
  { rewrite Hpath. intros H. apply append_same in H. discriminate. }
  destruct (Nat.lt_trichotomy i j) as [Hlt|[Heq|Hgt]]; [exact Hlt| |].
  - subst j. rewrite Hi in Hj. injection Hj as ->. congruence.
  - exfalso. apply Hne.
    pose proof (StronglySorted_lookup _ _ j i F P Hsorted Hj Hi Hgt) as HFP.
    unfold asc_text in HFP. apply String.leb_antisym.
    + now apply Is_true_true.
    + apply Is_true_true. rewrite Hpath. apply leb_prefix.
Qed.

(** ** createDocument, deleteDocument and the lookups *)

Lemma createDocument_run (now : Timestamp) (document : InsertDocument.t) (w : World) :
  createDocument now document w
  = (Return (serialize (new_document now document (documents_id_seq (db w)))),
     with_db w (insert_document (new_document now document) (db w)).2).
Proof. reflexivity. Qed.

Lemma createDocument_key_ok (now : Timestamp) (document : InsertDocument.t) (w : World) :
  documents_key_ok w -> documents_key_ok (createDocument now document w).2.
Proof.
  intros [Hnd Hlt]. rewrite createDocument_run. unfold documents_key_ok. cbn.
  rewrite Forall_forall in Hlt. split.
  - rewrite fmap_app. apply NoDup_app. split; [exact Hnd|]. split; [|apply NoDup_singleton].
    intros k Hk Hk'. apply list_elem_of_singleton in Hk'. subst k.
    apply list_elem_of_fmap in Hk as (d & Hd & Hin). specialize (Hlt d Hin). cbn in Hd. lia.
  - apply Forall_app. split.
    + apply Forall_forall. intros d Hd. specialize (Hlt d Hd). lia.
    + repeat constructor. cbn. lia.
Qed.

Lemma join_details_intro (docs : list documents.row) (us : list User) (fs : list Folder)
    (doc : documents.row) (u : User) (f : Folder) :
  doc ∈ docs ->
  u ∈ us -> users.id u = documents.createdBy doc ->
  f ∈ fs -> folders.id f = documents.folderId doc ->
  (doc, u, f) ∈ join_details docs us fs.
Proof.
  intros Hdoc Hu Hui Hf Hfi. induction docs as [|d docs IH]; [inversion Hdoc|].
  rewrite join_details_cons. apply elem_of_app.
  apply elem_of_cons in Hdoc as [<-|Hdoc]; [left | right; auto].
  apply list_elem_of_bind. exists u. split; [|now apply list_elem_of_filter].
  apply list_elem_of_bind. exists f. split; [left | now apply list_elem_of_filter].
Qed.

(** X9: on a store whose document, user and folder ids are serial
    keys, a document created for an existing creator and an existing
    folder is a first version ([version = 1], [isLatestVersion = true],
    status 'draft', no parent) that [getDocumentById] finds under its
    id, with that creator and folder, and that [getDocuments] lists. *)
Theorem createDocument_then_found (now : Timestamp) (document : InsertDocument.t) (w : World) :
  documents_key_ok w ->
  keys_ok w ->
  (exists u, u ∈ users (db w) /\ users.id u = InsertDocument.createdBy document) ->
  (exists f, f ∈ folders (db w) /\ folders.id f = InsertDocument.folderId document) ->
  exists (doc : Document) (w' : World) (u : User) (f : Folder)
         (L : list (WithDetails Document)),
    createDocument now document w = (Return doc, w')
    /\ documents.version doc = 1
    /\ documents.isLatestVersion doc = true
    /\ documents.status doc = "draft"
    /\ documents.parentDocumentId doc = None
    /\ u ∈ users (db w) /\ users.id u = documents.createdBy doc
    /\ f ∈ folders (db w) /\ folders.id f = documents.folderId doc
    /\ getDocumentById (documents.id doc) w'
       = (Return (Some {| document := doc; createdByUser := u; folder := f |}), w')
    /\ getDocuments None w' = (Return L, w')
    /\ {| document := doc; createdByUser := u; folder := f |} ∈ L.
Proof.
  intros Hdocs (Husers & Hfolders & _) Hcreator Hfolder.
  destruct Husers as [Hus _], Hfolders as [Hfs _].
  pose proof (createDocument_key_ok now document w Hdocs) as [Hnd' _].
  set (row := new_document now document (documents_id_seq (db w))).
  set (w' := (createDocument now document w).2) in *.
  assert (Hrow : row ∈ documents (db w')) by (cbn; apply elem_of_app; right; left).
  assert (Hu : has_creator (db w') row).
  { apply Exists_exists. destruct Hcreator as (u & Hin & Hid). exists u. auto. }
  assert (Hf : has_folder (db w') row).
  { apply Exists_exists. destruct Hfolder as (f & Hin & Hid). exists f. auto. }
  destruct (getDocumentById_found w' row Hnd' Hus Hfs Hrow Hu Hf)
    as ([d u f] & Hget & Hd & Hu' & Hui & Hf' & Hfi).
  cbn in Hd, Hu', Hui, Hf', Hfi. subst d.
  exists (serialize row), w', u, f. eexists.
  split; [reflexivity|]. do 4 (split; [reflexivity|]).
  split; [exact Hu'|]. split; [exact Hui|]. split; [exact Hf'|]. split; [exact Hfi|].
  split; [exact Hget|]. split; [reflexivity|].
  change {| document := serialize row; createdByUser := u; folder := f |}
    with (serialize_details (select_details (row, u, f))).
  apply list_elem_of_fmap_2, list_elem_of_fmap_2.
  unfold Sql.orderBy. rewrite merge_sort_Permutation.
  apply list_elem_of_filter. split.
  - apply holds_and_. cbn -[Sql.holds Sql.eq]. rewrite Forall_cons, holds_eq.
    split; [reflexivity | constructor].
  - apply join_details_intro; assumption.
Qed.

Lemma keys_ok_one_folder : keys_ok Sample.one_folder.
Proof.
  exact (keys_ok_exec (CreateFolder 100 (Sample.new_folder "Accounting" None))
           Sample.empty keys_ok_empty).
Qed.

Lemma createDocument_then_found_a :
  exists (doc : Document) (w' : World) (u : User) (f : Folder)
         (L : list (WithDetails Document)),
    createDocument 200 (Sample.upload "a" 1) Sample.one_folder = (Return doc, w')
    /\ documents.version doc = 1
    /\ documents.isLatestVersion doc = true
    /\ documents.status doc = "draft"
    /\ documents.parentDocumentId doc = None
    /\ u ∈ users (db Sample.one_folder) /\ users.id u = documents.createdBy doc
    /\ f ∈ folders (db Sample.one_folder) /\ folders.id f = documents.folderId doc
    /\ getDocumentById (documents.id doc) w'
       = (Return (Some {| document := doc; createdByUser := u; folder := f |}), w')
    /\ getDocuments None w' = (Return L, w')
    /\ {| document := doc; createdByUser := u; folder := f |} ∈ L.
Proof.
  apply (createDocument_then_found 200 (Sample.upload "a" 1) Sample.one_folder).
  - split; [apply NoDup_nil_2 | constructor].
  - exact keys_ok_one_folder.
  - exists Sample.admin. split; [left | reflexivity].
  - exists Sample.accounting. split; [vm_compute; left | reflexivity].
Defined.

Lemma filter_twice {A} (P : A -> Prop) `{forall x, Decision (P x)} (l : list A) :
  filter P (filter P l) = filter P l.
Proof.
  rewrite list_filter_filter. apply list_filter_iff. intros x. tauto.
Qed.

Lemma filter_all {A} (P : A -> Prop) `{forall x, Decision (P x)} (l : list A) :
  (forall x, x ∈ l -> P x) -> filter P l = l.
Proof.
  intros Hall. induction l as [|x l IH]; [reflexivity|].
  rewrite filter_cons_True by (apply Hall; left).
  f_equal. apply IH. intros y Hy. apply Hall. now right.
Qed.

Lemma deleteDocument_run (id : Z) (w : World) :
  deleteDocument id w
  = (Return tt,
     with_db w (with_documents (db w)
       (filter (fun r => documents.id r <> id) (documents (db w))))).
Proof.
  unfold deleteDocument, statement, delete_documents. cbn beta iota zeta.
  now rewrite delete_where.
Qed.

(** X10: [deleteDocument] removes the rows with the id and no other
    row; deleting again changes nothing more, and afterwards
    [getDocumentById] answers [undefined] for the id. *)
Theorem deleteDocument_gone (id : Z) (w : World) :
  exists w',
    deleteDocument id w = (Return tt, w')
    /\ documents (db w') = filter (fun r => documents.id r <> id) (documents (db w))
    /\ folders (db w') = folders (db w)
    /\ activityLog (db w') = activityLog (db w)
    /\ disk w' = disk w
    /\ deleteDocument id w' = (Return tt, w')
    /\ getDocumentById id w' = (Return None, w').
Proof.
  exists (with_db w (with_documents (db w)
            (filter (fun r => documents.id r <> id) (documents (db w))))).
  split; [apply deleteDocument_run|].
  do 4 (split; [reflexivity|]). split.
  - rewrite deleteDocument_run. cbn. now rewrite filter_twice.
  - rewrite getDocumentById_run.
    match goal with |- context [filter ?P (from_documents ?d)] =>
      destruct (filter P (from_documents d)) as [|r rest] eqn:Hrows end;
      [reflexivity|].
    exfalso.
    match type of Hrows with filter ?P ?l = _ =>
      assert (Hr : r ∈ filter P l) by (rewrite Hrows; left) end.
    apply list_elem_of_filter in Hr as [Hid Hr].
    apply join_details_elem in Hr as (Hd & _). cbn in Hd.
    apply list_elem_of_filter in Hd as [Hne _]. contradiction.
Qed.

(** X11: when the document sequence is ahead of every document id,
    deleting the document that [createDocument] has just inserted gives
    back the table of documents as it was, and the sequence stays ahead:
    the id is not given again. *)
Theorem createDocument_then_deleteDocument (now : Timestamp) (document : InsertDocument.t)
    (w : World) :
  Forall (fun d => documents.id d < documents_id_seq (db w)) (documents (db w)) ->
  exists doc w1 w2,
    createDocument now document w = (Return doc, w1)
    /\ deleteDocument (documents.id doc) w1 = (Return tt, w2)
    /\ documents (db w2) = documents (db w)
    /\ documents_id_seq (db w2) = documents_id_seq (db w) + 1
    /\ documents.id doc < documents_id_seq (db w2).
Proof.
  intros Hlt. do 3 eexists. split; [apply createDocument_run|].
  split; [apply deleteDocument_run|]. cbn.
  split; [|split; [reflexivity | lia]].
  rewrite filter_app, filter_cons_False, filter_nil, app_nil_r by (cbn; tauto).
  rewrite Forall_forall in Hlt. apply filter_all.
  intros d Hd. specialize (Hlt d Hd). cbn. lia.
Qed.

Lemma createDocument_then_deleteDocument_a :
  exists doc w1 w2,
    createDocument 300 (Sample.upload "b" 1) Sample.one_document = (Return doc, w1)
    /\ deleteDocument (documents.id doc) w1 = (Return tt, w2)
    /\ documents (db w2) = documents (db Sample.one_document)
    /\ documents_id_seq (db w2) = documents_id_seq (db Sample.one_document) + 1
    /\ documents.id doc < documents_id_seq (db w2).
Proof.
  apply (createDocument_then_deleteDocument 300 (Sample.upload "b" 1) Sample.one_document).
  vm_compute. repeat constructor.
Defined.

Lemma updateDocument_absent_99 :
  exists w',
    updateDocument 300 99 Sample.rename Sample.one_document
    = (Throw (TypeError "Cannot read properties of undefined (reading 'createdAt')"), w')
    /\ documents (db w') = documents (db Sample.one_document).
Proof.
  apply (updateDocument_absent 300 99 Sample.rename Sample.one_document).
  intros d Hd. vm_compute in Hd. apply list_elem_of_singleton in Hd. subst d.
  vm_compute. discriminate.
Defined.

(** ** Repeated updates *)

Lemma updateDocument_run (now : Timestamp) (id : Z) (document : UpdateDocument.t) (w : World) :
  updateDocument now id document w
  = (match head (filter (fun r => documents.id r = id) (documents (db w))) with
     | Some old => Return (serialize (set_document now document old))
     | None => Throw (TypeError "Cannot read properties of undefined (reading 'createdAt')")
     end,
     with_db w (with_documents (db w)
       ((fun r => if decide (documents.id r = id) then set_document now document r else r)
          <$> documents (db w)))).
Proof.
  unfold updateDocument, bind, statement, update_documents. cbn beta iota zeta.
  rewrite where_key.
  assert (Hmap : (fun r => if Sql.holds (Sql.eq (Some (documents.id r)) (Some id))
                           then set_document now document r else r) <$> documents (db w)
                 = (fun r => if decide (documents.id r = id)
                             then set_document now document r else r) <$> documents (db w)).
  { apply list_fmap_ext. intros i r _. cbn.
    case_bool_decide; [rewrite decide_True | rewrite decide_False]; auto. }
  rewrite Hmap. now destruct (filter _ (documents (db w))).
Qed.

Lemma set_document_twice (now1 now2 : Timestamp) (document : UpdateDocument.t)
    (r : documents.row) :
  set_document now2 document (set_document now1 document r) = set_document now2 document r.
Proof.
  destruct document as [n f t d s e]. unfold set_document, or_default. cbn.
  destruct n, f, t, d, s, e; reflexivity.
Qed.

Lemma filter_set_document (now : Timestamp) (id : Z) (document : UpdateDocument.t)
    (rows : list documents.row) :
  filter (fun r => documents.id r = id)
    ((fun r => if decide (documents.id r = id) then set_document now document r else r)
       <$> rows)
  = set_document now document <$> filter (fun r => documents.id r = id) rows.
Proof.
  induction rows as [|r rows IH]; [reflexivity|].
  rewrite fmap_cons, !filter_cons. destruct (decide (documents.id r = id)) as [Heq|Hne].
  - rewrite decide_True by exact Heq. now rewrite fmap_cons, IH.
  - rewrite decide_False by exact Hne. exact IH.
Qed.

(** X12: an update with a payload, repeated later with the same
    payload, gives the answer and the world of the later update alone:
    the update is idempotent up to [updatedAt], and when no row has the
    id both calls throw. *)
Theorem updateDocument_twice (now1 now2 : Timestamp) (id : Z) (document : UpdateDocument.t)
    (w : World) :
  updateDocument now2 id document (updateDocument now1 id document w).2
  = updateDocument now2 id document w.
Proof.
  rewrite (updateDocument_run now2 id document (updateDocument now1 id document w).2).
  rewrite (updateDocument_run now1), (updateDocument_run now2). cbn.
  rewrite filter_set_document. f_equal.
  - destruct (filter _ (documents (db w))) as [|old rest]; [reflexivity|].
    cbn. now rewrite set_document_twice.
  - do 2 f_equal. rewrite <- list_fmap_compose. apply list_fmap_ext.
    intros i r _. cbn. destruct (decide (documents.id r = id)) as [Heq|Hne].
    + rewrite decide_True by exact Heq. apply set_document_twice.
    + now rewrite decide_False.
Qed.

(** ** getRecentActivity *)

(** X13: [getRecentActivity] returns the first [limit] (50 when the
    argument is left out) of the log entries joined with their users,
    newest first: at most [limit] entries, each an entry of the log
    with the user whose id it carries; an entry whose user does not
    exist is never returned. *)
Theorem getRecentActivity_recent (limit : option nat) (w : World) :
  exists L : list ActivityWithUser,
    getRecentActivity limit w = (Return (take (default 50%nat limit) L), w)
    /\ length (take (default 50%nat limit) L)
       = Nat.min (default 50%nat limit) (length L)
    /\ Sorted (Sql.desc (fun r => activityLog.createdAt (entry r))) L
    /\ (forall r, r ∈ L <->
          entry r ∈ activityLog (db w)
          /\ user r ∈ users (db w)
          /\ users.id (user r) = activityLog.userId (entry r)).
Proof.
  eexists. split.
  - unfold getRecentActivity, query. rewrite fmap_take. reflexivity.
  - split; [apply length_take|]. split.
    + apply (Sorted_fmap _ by_logged_desc).
      * intros r1 r2 H. exact H.
      * unfold Sql.orderBy. apply Sorted_merge_sort. apply _.
    + intros [a u]. rewrite list_elem_of_fmap. cbn. split.
      * intros ([a' u'] & Heq & Hin). injection Heq as -> ->.
        unfold Sql.orderBy in Hin. rewrite merge_sort_Permutation in Hin.
        unfold Sql.innerJoin in Hin.
        apply list_elem_of_bind in Hin as (a0 & Hin & Ha0).
        apply list_elem_of_bind in Hin as (u0 & Hin & Hu0).
        apply list_elem_of_singleton in Hin. injection Hin as -> ->.
        apply list_elem_of_filter in Hu0 as [Hid Hu0].
        apply holds_eq in Hid. auto.
      * intros (Ha & Hu & Hid). exists (a, u). split; [reflexivity|].
        unfold Sql.orderBy. rewrite merge_sort_Permutation. unfold Sql.innerJoin.
        apply list_elem_of_bind. exists a. split; [|exact Ha].
        apply list_elem_of_bind. exists u. split; [left|].
        apply list_elem_of_filter. split; [|exact Hu]. apply holds_eq. auto.
Qed.

(** ** The listing, the search and the statistics *)

Lemma like_match_any_any (s : string) : Sql.like_match [Sql.AnySeq; Sql.AnySeq] s = true.
Proof. destruct s; rewrite like_match_AnySeq, like_match_any; reflexivity. Qed.

Lemma text_like_empty (doc : documents.row) : text_like "" doc = true.
Proof.
  unfold text_like. change (Sql.like_tokens false ("%" +:+ "" +:+ "%"))
    with [Sql.AnySeq; Sql.AnySeq].
  now rewrite like_match_any_any.
Qed.

(** X14: a search with the empty query and without filters returns
    what the listing without folder returns. *)
Theorem searchDocuments_empty_query (w : World) :
  searchDocuments "" None w = getDocuments None w.
Proof.
  unfold searchDocuments, getDocuments, bind, query, ret. do 5 f_equal.
  unfold Sql.where_. apply list_filter_iff. intros r.
  rewrite search_where by (repeat split; discriminate).
  rewrite getDocuments_where by discriminate.
  rewrite text_like_empty. unfold passes, in_folder. cbn. tauto.
Qed.

(** X15: whatever the query and the filters, every row that a search
    returns is a row that the listing without folder returns. *)
Theorem searchDocuments_within_listing (q : string) (filters : option Filters.t) (w : World) :
  exists Ls Ld : list (WithDetails Document),
    searchDocuments q filters w = (Return Ls, w)
    /\ getDocuments None w = (Return Ld, w)
    /\ forall r, r ∈ Ls -> r ∈ Ld.
Proof.
  do 2 eexists. split; [reflexivity|]. split; [reflexivity|].
  intros r Hr.
  apply list_elem_of_fmap in Hr as (r1 & -> & Hr). apply list_elem_of_fmap_2.
  apply list_elem_of_fmap in Hr as (t & -> & Hr). apply list_elem_of_fmap_2.
  unfold Sql.orderBy in *. rewrite merge_sort_Permutation in Hr.
  rewrite merge_sort_Permutation.
  apply list_elem_of_filter in Hr as [Hc Hr]. apply list_elem_of_filter.
  split; [|exact Hr].
  apply holds_and_ in Hc. rewrite omap_id_Some in Hc. unfold search_conditions in Hc.
  cbn [app] in Hc. apply Forall_cons in Hc as [Hlatest _].
  apply holds_and_. cbn -[Sql.holds Sql.eq]. apply Forall_cons. split; [exact Hlatest|].
  constructor.
Qed.

Lemma getDocumentStats_total (now : Timestamp) (w : World) :
  exists stats,
    getDocumentStats now w = (Return stats, w)
    /\ totalDocuments stats = Z.of_nat (length (latest_documents (db w))).
Proof.
  eexists. split; [reflexivity|]. cbn -[filter Sql.holds Sql.eq].
  rewrite or_num_Some. unfold Sql.count_star. now rewrite where_latest.
Qed.

(** X16: on a store with unique user and folder ids, the listing
    without folder never has more rows than [totalDocuments] of the
    statistics, which counts the latest versions without the join, and
    has as many when every latest version has its creator and folder. *)
Theorem getDocuments_at_most_total (now : Timestamp) (w : World) :
  NoDup (users.id <$> users (db w)) ->
  NoDup (folders.id <$> folders (db w)) ->
  exists (L : list (WithDetails Document)) (stats : DocumentStats),
    getDocuments None w = (Return L, w)
    /\ getDocumentStats now w = (Return stats, w)
    /\ Z.of_nat (length L) <= totalDocuments stats
    /\ ((forall d, d ∈ latest_documents (db w) ->
           has_creator (db w) d /\ has_folder (db w) d) ->
        Z.of_nat (length L) = totalDocuments stats).
Proof.
  intros Hus Hfs.
  destruct (getDocumentStats_total now w) as (stats & Hstats & Htotal).
  destruct (details_query (db w) _
              (fun doc => documents.isLatestVersion doc = true /\ in_folder None doc)
              Hus Hfs (fun r => getDocuments_where None r ltac:(discriminate)))
    as (Hperm & _ & _).
  eexists. exists stats. split; [reflexivity|]. split; [exact Hstats|].
  rewrite Htotal, !length_fmap.
  match type of Hperm with ?l ≡ₚ _ =>
    assert (Hlen : length l = length (filter (fun doc =>
      (has_creator (db w) doc /\ has_folder (db w) doc))
      (latest_documents (db w)))) end.
  { rewrite Hperm. unfold latest_documents. rewrite list_filter_filter.
    f_equal. apply list_filter_iff. intros d. unfold in_folder. cbn. tauto. }
  rewrite !length_fmap in Hlen. rewrite Hlen. split.
  - apply inj_le, length_filter.
  - intros Hall. now rewrite filter_all.
Qed.

Lemma getDocuments_at_most_total_one :
  exists (L : list (WithDetails Document)) (stats : DocumentStats),
    getDocuments None Sample.stray_document = (Return L, Sample.stray_document)
    /\ getDocumentStats 0 Sample.stray_document = (Return stats, Sample.stray_document)
    /\ Z.of_nat (length L) <= totalDocuments stats
    /\ ((forall d, d ∈ latest_documents (db Sample.stray_document) ->
           has_creator (db Sample.stray_document) d
           /\ has_folder (db Sample.stray_document) d) ->
        Z.of_nat (length L) = totalDocuments stats).
Proof.
  apply (getDocuments_at_most_total 0 Sample.stray_document).
  - vm_compute. apply NoDup_singleton.
  - vm_compute. apply NoDup_singleton.
Defined.

(** ** The download, favorite and update routes *)

Lemma logActivity_run (now : Timestamp) (userId : Z) (action resourceType : string)
    (resourceId : Z) (metadata : option (list (string * Json))) (w : World) :
  logActivity now userId action resourceType resourceId metadata w
  = (Return tt,
     with_db w (insert_activity (fun id =>
       {| activityLog.id := id;
          activityLog.userId := userId;
          activityLog.action := action;
          activityLog.resourceType := resourceType;
          activityLog.resourceId := resourceId;
          activityLog.metadata := Some (default [] metadata);
          activityLog.createdAt := Some now |}) (db w)).2).
Proof. reflexivity. Qed.

(** X17: the download route changes no document and no file. It
    answers 404 when the lookup finds no document and when the file of
    the document is not on the disk, logging nothing in both cases;
    otherwise it logs one 'download_document' entry and sends the file
    under the original name. *)
Theorem download_document_cases (now : Timestamp) (id : Z) (w : World) :
  exists reply w',
    download_document now id w = (Return reply, w')
    /\ documents (db w') = documents (db w)
    /\ disk w' = disk w
    /\ match (getDocumentById id w).1 with
       | Return (Some doc) =>
           if decide (documents.filePath (document doc) ∈ disk w)
           then reply = send (documents.filePath (document doc),
                              documents.originalName (document doc))
                /\ exists entry, activityLog (db w') = activityLog (db w) ++ [entry]
                                 /\ activityLog.action entry = "download_document"
                                 /\ activityLog.resourceId entry = id
           else reply = send_status 404 "File not found on disk"
                /\ activityLog (db w') = activityLog (db w)
       | _ => reply = send_status 404 "Document not found"
              /\ activityLog (db w') = activityLog (db w)
       end.
Proof.
  unfold download_document, try_catch. unfold bind at 1.
  rewrite getDocumentById_run. cbn [fst].
  destruct (head _) as [r|]; cbn [fmap option_fmap option_map].
  - unfold bind at 1. unfold existsSync.
    destruct (decide (documents.filePath (document (serialize_details r)) ∈ disk w))
      as [Hin|Hout].
    + rewrite bool_decide_eq_true_2 by exact Hin. cbn.
      do 2 eexists. split; [reflexivity|]. repeat split. eexists. repeat split.
    + rewrite bool_decide_eq_false_2 by exact Hout. cbn.
      do 2 eexists. split; [reflexivity|]. repeat split.
  - do 2 eexists. split; [reflexivity|]. repeat split.
Qed.

(** X18: the favorite route answers 200 and appends one
    'favorite_document' entry to the log for every id, also one that no
    document has; no other table and no file changes: the favorite
    status is stored nowhere else. *)
Theorem favorite_document_only_logs (now : Timestamp) (id : Z) (w : World) :
  exists (entry : ActivityLog) (w' : World),
    favorite_document now id w
    = (Return (send (true, "Document favorite status updated")), w')
    /\ same_but_activityLog w w'
    /\ activityLog (db w') = activityLog (db w) ++ [entry]
    /\ activityLog.action entry = "favorite_document"
    /\ activityLog.resourceId entry = id
    /\ activityLog.userId entry = getCurrentUserId.
Proof.
  do 2 eexists. split; [reflexivity|]. cbn. repeat split.
Qed.

Lemma update_ids_absent (now : Timestamp) (id : Z) (document : UpdateDocument.t)
    (rows : list documents.row) :
  head (filter (fun r => documents.id r = id) rows) = None ->
  (fun r => if decide (documents.id r = id) then set_document now document r else r)
    <$> rows = rows.
Proof.
  intros Hnone. apply head_None in Hnone.
  rewrite <- (list_fmap_id rows) at 2. apply list_fmap_ext. intros i r Hr.
  apply list_elem_of_lookup_2 in Hr. destruct (decide (documents.id r = id)) as [Heq|]; [|auto].
  exfalso. assert (Hin : r ∈ filter (fun r => documents.id r = id) rows)
    by (apply list_elem_of_filter; auto).
  rewrite Hnone in Hin. inversion Hin.
Qed.

(** X19: the update route answers with the rewritten document and logs
    one 'update_document' entry when a row has the id; when none has, it
    answers 500 (not 404), changes no document and logs nothing but a
    line on the console. *)
Theorem put_document_cases (now : Timestamp) (id : Z) (documentData : UpdateDocument.t)
    (w : World) :
  exists reply w',
    put_document now id documentData w = (Return reply, w')
    /\ match head (filter (fun r => documents.id r = id) (documents (db w))) with
       | Some old =>
           reply = send (serialize (set_document now documentData old))
           /\ console w' = console w
           /\ exists entry, activityLog (db w') = activityLog (db w) ++ [entry]
                            /\ activityLog.action entry = "update_document"
                            /\ activityLog.resourceId entry = id
       | None =>
           reply = send_status 500 "Failed to update document"
           /\ documents (db w') = documents (db w)
           /\ activityLog (db w') = activityLog (db w)
           /\ console w' = console w ++ ["Error updating document:"]
       end.
Proof.
  unfold put_document, try_catch. unfold bind at 1. rewrite updateDocument_run.
  destruct (head _) as [old|] eqn:Hhead.
  - do 2 eexists. split; [reflexivity|]. cbn. repeat split. eexists. repeat split.
  - do 2 eexists. split; [reflexivity|]. cbn. repeat split.
    now apply update_ids_absent.
Qed.

Lemma delete_document_with_file_aux (now : Timestamp) (id : Z) (w : World)
    (doc : WithDetails Document) :
  getDocumentById id w = (Return (Some doc), w) ->
  documents.filePath (document doc) ∈ disk w ->
  exists w',
    delete_document now id w
    = (Return (json (Message "Document deleted successfully")), w')
    /\ documents (db w') = filter (fun r => documents.id r <> id) (documents (db w)).
Proof.
  intros Hfound Hfile. eexists. split.
  - unfold delete_document, try_catch. unfold bind at 1. rewrite Hfound.
    unfold bind at 1. unfold try_catch, unlinkSync.
    rewrite decide_True by exact Hfile. reflexivity.
  - cbn -[filter Sql.holds Sql.eq]. now rewrite delete_where.
Qed.

Lemma delete_document_missing_file_aux (now : Timestamp) (id : Z) (w : World)
    (doc : WithDetails Document) :
  getDocumentById id w = (Return (Some doc), w) ->
  documents.filePath (document doc) ∉ disk w ->
  exists w',
    delete_document now id w
    = (Return (json (Message "Document deleted successfully")), w')
    /\ documents (db w') = filter (fun r => documents.id r <> id) (documents (db w)).
Proof.
  intros Hfound Hfile. eexists. split.
  - unfold delete_document, try_catch. unfold bind at 1. rewrite Hfound.
    unfold bind at 1. unfold try_catch, unlinkSync.
    rewrite decide_False by exact Hfile. reflexivity.
  - cbn -[filter Sql.holds Sql.eq]. now rewrite delete_where.
Qed.

(** X20: once the delete route has answered 200 for an id, the get
    route answers 404 for that id, whether or not the file was on the
    disk. *)
Theorem delete_document_then_get (now : Timestamp) (id : Z) (w : World)
    (doc : WithDetails Document) :
  getDocumentById id w = (Return (Some doc), w) ->
  exists w',
    delete_document now id w
    = (Return (json (Message "Document deleted successfully")), w')
    /\ get_document id w' = (Return (send_status 404 "Document not found"), w').
Proof.
  intros Hfound.
  assert (Hgone : forall w1, documents (db w1)
                    = filter (fun r => documents.id r <> id) (documents (db w)) ->
                  getDocumentById id w1 = (Return None, w1)).
  { intros w1 Hdocs. rewrite getDocumentById_run.
    destruct (filter _ (from_documents (db w1))) as [|r rest] eqn:Hrows; [reflexivity|].
    exfalso.
    assert (Hr : r ∈ filter (fun r => documents.id r.1.1 = id) (from_documents (db w1)))
      by (rewrite Hrows; left).
    apply list_elem_of_filter in Hr as [Hid Hr].
    apply join_details_elem in Hr as (Hd & _). rewrite Hdocs in Hd.
    apply list_elem_of_filter in Hd as [Hne _]. contradiction. }
  destruct (decide (documents.filePath (document doc) ∈ disk w)) as [Hin|Hout].
  - destruct (delete_document_with_file_aux now id w doc Hfound Hin) as (w' & Hrun & Hdocs).
    exists w'. split; [exact Hrun|].
    unfold get_document, try_catch, bind. now rewrite (Hgone w' Hdocs).
  - destruct (delete_document_missing_file_aux now id w doc Hfound Hout)
      as (w' & Hrun & Hdocs).
    exists w'. split; [exact Hrun|].
    unfold get_document, try_catch, bind. now rewrite (Hgone w' Hdocs).
Qed.

Lemma delete_document_then_get_one :
  exists w',
    delete_document 300 1 Sample.one_document
    = (Return (json (Message "Document deleted successfully")), w')
    /\ get_document 1 w' = (Return (send_status 404 "Document not found"), w').
Proof.
  eapply (delete_document_then_get 300 1 Sample.one_document). vm_compute. reflexivity.
Defined.

Lemma delete_document_with_file_a :
  exists w',
    delete_document 300 1 Sample2.with_file
    = (Return (json (Message "Document deleted successfully")), w')
    /\ documents (db w')
       = filter (fun r => documents.id r <> 1) (documents (db Sample2.with_file))
    /\ disk w' = disk Sample2.with_file ∖ {["uploads/a"]}
    /\ console w' = console Sample2.with_file.
Proof.
  eapply (delete_document_with_file 300 1 Sample2.with_file
            {| document := serialize (new_document 200 (Sample.upload "a" 1) 1);
               createdByUser := Sample.admin; folder := Sample.accounting |}).
  - vm_compute. reflexivity.
  - change ("uploads/a" ∈ ({["uploads/a"]} : gset string)).
    now apply elem_of_singleton_2.
Defined.

(** ** The upload route *)

Section UploadFacts.

Variable extname : string -> string.
Variable toLowerCase : string -> string.
Variable trim : string -> string.

Lemma uploaded_rows_ids (now : Timestamp) (folderId : Z) (tags : list string)
    (files : list File.t) (first : Z) :
  documents.id <$> uploaded_rows extname toLowerCase now folderId tags files first
  = serial_ids first (length files).
Proof.
  revert first. induction files as [|file rest IH]; intros first; [reflexivity|].
  cbn. now rewrite IH.
Qed.

Lemma uploaded_rows_first_versions (now : Timestamp) (folderId : Z) (tags : list string)
    (files : list File.t) (first : Z) :
  Forall (fun r => documents.folderId r = folderId
                   /\ documents.version r = 1
                   /\ documents.isLatestVersion r = true
                   /\ documents.tags r = Some tags)
    (uploaded_rows extname toLowerCase now folderId tags files first).
Proof.
  revert first. induction files as [|file rest IH]; intros first; [constructor|].
  cbn [uploaded_rows]. constructor; [cbn; repeat split | apply IH].
Qed.

Lemma upload_each_run (now : Timestamp) (folderId : Z) (tags : list string)
    (files : list File.t) (uploaded : list Document) (w : World) :
  let rows := uploaded_rows extname toLowerCase now folderId tags files
                (documents_id_seq (db w)) in
  exists (entries : list ActivityLog) (w' : World),
    upload_each extname toLowerCase now folderId tags files uploaded w
    = (Return (uploaded ++ (serialize <$> rows)), w')
    /\ documents (db w') = documents (db w) ++ rows
    /\ activityLog (db w') = activityLog (db w) ++ entries
    /\ activityLog.resourceId <$> entries = documents.id <$> rows
    /\ Forall (fun e => activityLog.action e = "upload_document") entries
    /\ users (db w') = users (db w)
    /\ folders (db w') = folders (db w)
    /\ documentPermissions (db w') = documentPermissions (db w)
    /\ documentShares (db w') = documentShares (db w)
    /\ disk w' = disk w.
Proof.
  revert uploaded w. induction files as [|file rest IH]; intros uploaded w rows.
  - exists [], w. subst rows. cbn. rewrite !app_nil_r. repeat split. constructor.
  - cbn [upload_each]. unfold bind at 1. rewrite createDocument_run.
    unfold bind at 1. rewrite logActivity_run.
    match goal with |- context [upload_each _ _ _ _ _ _ ?u ?w1] =>
      destruct (IH u w1) as (entries & w' & Hrun & Hdocs & Hlog & Hids & Hact
                             & Hu & Hf & Hp & Hs & Hd) end.
    cbn in Hrun, Hdocs, Hlog, Hids, Hu, Hf, Hp, Hs, Hd.
    eexists (_ :: entries), w'. subst rows. cbn.
    split; [rewrite Hrun; now rewrite <- app_assoc|].
    split; [rewrite Hdocs; now rewrite <- app_assoc|].
    split; [rewrite Hlog; now rewrite <- app_assoc|].
    split; [cbn; now rewrite Hids|].
    split; [constructor; [reflexivity | exact Hact]|].
    auto.
Qed.

(** X21: without files the upload route answers 400 and changes
    nothing. With files it inserts one document per file, in order, with
    consecutive ids from the sequence, each a first version in the given
    folder with the same tags, logs one 'upload_document' entry per
    document with the id of that document, and answers with the
    documents. *)
Theorem upload_documents_each (now : Timestamp) (files : option (list File.t)) (folderId : Z)
    (tags : option string) (w : World) :
  exists reply w',
    upload_documents extname toLowerCase trim now files folderId tags w
    = (Return reply, w')
    /\ match default [] files with
       | [] => reply = send_status 400 "No files uploaded" /\ w' = w
       | file :: rest =>
           let rows := uploaded_rows extname toLowerCase now folderId
                         (upload_tags trim tags) (file :: rest)
                         (documents_id_seq (db w)) in
           reply = send (serialize <$> rows)
           /\ documents (db w') = documents (db w) ++ rows
           /\ documents.id <$> rows
              = serial_ids (documents_id_seq (db w)) (length (file :: rest))
           /\ Forall (fun r => documents.folderId r = folderId
                               /\ documents.version r = 1
                               /\ documents.isLatestVersion r = true
                               /\ documents.tags r = Some (upload_tags trim tags)) rows
           /\ exists entries,
                activityLog (db w') = activityLog (db w) ++ entries
                /\ activityLog.resourceId <$> entries
                   = serial_ids (documents_id_seq (db w)) (length (file :: rest))
                /\ Forall (fun e => activityLog.action e = "upload_document") entries
       end.
Proof.
  unfold upload_documents, try_catch.
  destruct files as [[|file rest]|]; cbn [default];
    try (do 2 eexists; split; [reflexivity|]; split; reflexivity).
  unfold bind at 1.
  destruct (upload_each_run now folderId (upload_tags trim tags) (file :: rest) [] w)
    as (entries & w' & Hrun & Hdocs & Hlog & Hids & Hact & _).
  rewrite Hrun. do 2 eexists. split; [reflexivity|]. cbv zeta.
  split; [reflexivity|]. split; [exact Hdocs|].
  split; [apply uploaded_rows_ids|]. split.
  - apply uploaded_rows_first_versions.
  - exists entries. split; [exact Hlog|]. split; [|exact Hact].
    rewrite Hids. apply uploaded_rows_ids.
Qed.

End UploadFacts.

(** ** What no call does *)

Lemma log_grows_refl (w w' : World) :
  users (db w') = users (db w) ->
  documentPermissions (db w') = documentPermissions (db w) ->
  documentShares (db w') = documentShares (db w) ->
  activityLog (db w') = activityLog (db w) ->
  log_grows w w'.
Proof. intros Hu Hp Hs Hl. unfold log_grows. rewrite Hl. auto. Qed.

Lemma log_grows_one (w w' : World) (e : ActivityLog) :
  users (db w') = users (db w) ->
  documentPermissions (db w') = documentPermissions (db w) ->
  documentShares (db w') = documentShares (db w) ->
  activityLog (db w') = activityLog (db w) ++ [e] ->
  log_grows w w'.
Proof.
  intros Hu Hp Hs Hl. unfold log_grows. rewrite Hl.
  repeat split; auto. now apply prefix_app_r.
Qed.

Ltac log_grows_tac :=
  first [ apply log_grows_refl; reflexivity
        | eapply log_grows_one; reflexivity ].

Lemma exec_log_grows (c : Call) (w : World) : log_grows w (exec c w).
Proof.
  destruct c as [now folder| | | | |now id|now token id req]; cbn [exec].
  - destruct (createFolder_world now folder w) as [->|(parentId & path & ->)];
      log_grows_tac.
  - log_grows_tac.
  - rewrite updateDocument_run. log_grows_tac.
  - log_grows_tac.
  - log_grows_tac.
  - unfold delete_document, try_catch. unfold bind at 1. rewrite getDocumentById_run.
    destruct (head _) as [r|]; cbn [fmap option_fmap option_map]; [|log_grows_tac].
    unfold bind at 1. unfold try_catch, unlinkSync.
    destruct (decide _); log_grows_tac.
  - unfold share_document, try_catch. destruct (Request.body req); log_grows_tac.
Qed.

(** X22: no call that is modelled, storage method or route, writes a
    user, a permission or a share, and none removes or rewrites an entry
    of the activity log: after the call the old log is a prefix of the
    new one. *)
Theorem run_log_grows (o : Op) (w : World) : log_grows w (run o w).
Proof.
  destruct o as [c| |now id folder|id|id|now id data|now id|now id
                 |extname toLowerCase trim now files folderId tags]; cbn [run].
  - apply exec_log_grows.
  - log_grows_tac.
  - rewrite updateFolder_run. log_grows_tac.
  - log_grows_tac.
  - unfold get_document, try_catch, bind. rewrite getDocumentById_run.
    destruct (head _); log_grows_tac.
  - unfold put_document, try_catch. unfold bind at 1. rewrite updateDocument_run.
    destruct (head _); log_grows_tac.
  - unfold download_document, try_catch. unfold bind at 1. rewrite getDocumentById_run.
    destruct (head _) as [r|]; cbn [fmap option_fmap option_map]; [|log_grows_tac].
    unfold bind at 1. unfold existsSync. destruct (bool_decide _); log_grows_tac.
  - log_grows_tac.
  - unfold upload_documents, try_catch.
    destruct files as [[|file rest]|]; try log_grows_tac.
    unfold bind at 1.
    destruct (upload_each_run extname toLowerCase now folderId (upload_tags trim tags)
                (file :: rest) [] w)
      as (entries & w' & Hrun & _ & Hlog & _ & _ & Hu & _ & Hp & Hs & _).
    rewrite Hrun. cbn. unfold log_grows. rewrite Hu, Hp, Hs, Hlog.
    repeat split. now apply prefix_app_r.
Qed.

Lemma keys_ok_calls_sample :
  keys_ok (foldl (fun w c => exec c w) Sample.empty
             [CreateFolder 100 (Sample.new_folder "Accounting" None);
              CreateDocument 200 (Sample.upload "a" 1);
              DeleteRoute 300 1]).
Proof. apply keys_ok_calls. exact keys_ok_empty. Defined.
